(** * Semantic index engine of the airspace visualizer (ai_server.py)

    A shallow embedding of the source parsers, the rebuild cycle and the two
    query handlers of [ai_server.py], with the properties the specification
    states about them, and of the part of [mock_data_generator.py] that
    writes the two telemetry files these parsers read.

    Conventions of the model.
    - A Python [str] is a Rocq [string]; one [ascii] is one character, so the
      model covers the code points below 256.
    - A Python exception is a value of [exn]; a call that may raise returns
      [result].  An exception that leaves a Flask view function is the
      [Raise] outcome of the handler.
    - numpy/faiss arithmetic is written once over an interface [FloatOps],
      and the properties of the handlers hold for every instance of it; it
      is instantiated with binary64 machine floats and with IEEE binary32,
      the format of the numpy arrays and of the faiss index, to run the
      code. *)

From Stdlib Require Import ZArith List String Ascii Bool Lia.
From Stdlib Require Import Floats DecimalString.
Import ListNotations.
Local Open Scope string_scope.
Local Open Scope Z_scope.

Set Implicit Arguments.
Set Warnings "-register-all".

(** ** Python runtime *)

Module Py.

(** An exception: its class name and [str(e)]. *)
Record exn := Exn { exn_type : string; exn_msg : string }.

Inductive result (A : Type) : Type :=
| Ok (a : A)
| Raise (e : exn).
Arguments Ok {A} a.
Arguments Raise {A} e.

Definition bind {A B} (r : result A) (k : A -> result B) : result B :=
  match r with
  | Ok a => k a
  | Raise e => Raise e
  end.

(** [str.isspace] on the code points below 256. *)
Definition is_space (c : ascii) : bool :=
  let n := nat_of_ascii c in
  ((9 <=? n) && (n <=? 13) || (28 <=? n) && (n <=? 32)
   || (n =? 133) || (n =? 160))%nat.

Fixpoint lstrip (s : string) : string :=
  match s with
  | EmptyString => EmptyString
  | String c s' => if is_space c then lstrip s' else s
  end.

Fixpoint rstrip (s : string) : string :=
  match s with
  | EmptyString => EmptyString
  | String c s' =>
      match rstrip s' with
      | EmptyString => if is_space c then EmptyString else String c EmptyString
      | r => String c r
      end
  end.

(** [s.strip()] *)
Definition strip (s : string) : string := rstrip (lstrip s).

Definition lower_char (c : ascii) : ascii :=
  let n := nat_of_ascii c in
  if ((65 <=? n) && (n <=? 90))%nat then ascii_of_nat (n + 32) else c.

(** [s.lower()], on ASCII letters. *)
Fixpoint lower (s : string) : string :=
  match s with
  | EmptyString => EmptyString
  | String c s' => String (lower_char c) (lower s')
  end.

(** Truth value of a [str] and of a [list]. *)
Definition truthy_str (s : string) : bool :=
  match s with EmptyString => false | _ => true end.

Definition truthy_list {A} (l : list A) : bool :=
  match l with [] => false | _ => true end.

(** [s[:n]] on a string, [n >= 0]. *)
Fixpoint str_prefix (n : nat) (s : string) : string :=
  match n, s with
  | S n', String c s' => String c (str_prefix n' s')
  | _, _ => EmptyString
  end.

(** [l[:n]] for any integer [n]: a negative [n] counts from the end. *)
Definition slice_to {A} (n : Z) (l : list A) : list A :=
  if 0 <=? n then firstn (Z.to_nat n) l
  else firstn (Z.to_nat (Z.of_nat (List.length l) + n)) l.

(** [l[i]] for any integer [i]: a negative [i] counts from the end, an
    index outside [-len, len) raises [IndexError]. *)
Definition index_error : exn := Exn "IndexError" "list index out of range".

Definition getitem {A} (l : list A) (i : Z) : result A :=
  let n := Z.of_nat (List.length l) in
  let j := if i <? 0 then n + i else i in
  if (0 <=? j) && (j <? n) then
    match nth_error l (Z.to_nat j) with
    | Some a => Ok a
    | None => Raise index_error
    end
  else Raise index_error.

(** The whitespace [int(s)] and [float(s)] skip around a number: that of
    [str.isspace] without the separators 28 to 31. *)
Definition is_space_num (c : ascii) : bool :=
  let n := nat_of_ascii c in
  ((9 <=? n) && (n <=? 13) || (n =? 32) || (n =? 133) || (n =? 160))%nat.

Fixpoint num_lstrip (s : string) : string :=
  match s with
  | EmptyString => EmptyString
  | String c s' => if is_space_num c then num_lstrip s' else s
  end.

Fixpoint num_rstrip (s : string) : string :=
  match s with
  | EmptyString => EmptyString
  | String c s' =>
      match num_rstrip s' with
      | EmptyString => if is_space_num c then EmptyString else String c EmptyString
      | r => String c r
      end
  end.

Definition num_strip (s : string) : string := num_rstrip (num_lstrip s).

Definition digit_val (c : ascii) : option Z :=
  let n := nat_of_ascii c in
  if ((48 <=? n) && (n <=? 57))%nat then Some (Z.of_nat (n - 48)) else None.

Definition starts_with_digit (s : string) : bool :=
  match s with
  | String c _ => match digit_val c with Some _ => true | None => false end
  | EmptyString => false
  end.

(** A run of decimal digits with single underscores between digits: the
    value accumulated on [acc], the number of digits read, and what follows
    the run.  An underscore that is not between two digits ends the run. *)
Fixpoint digit_run (s : string) (acc : Z) (n : nat) (after_digit : bool)
  : Z * nat * string :=
  match s with
  | EmptyString => (acc, n, s)
  | String c s' =>
      match digit_val c with
      | Some d => digit_run s' (10 * acc + d) (S n) true
      | None =>
          if (Ascii.eqb c "_" && after_digit && starts_with_digit s')%bool
          then digit_run s' acc n false
          else (acc, n, s)
      end
  end.

(** An optional sign. *)
Definition sign (s : string) : bool * string :=
  match s with
  | String "-" r => (true, r)
  | String "+" r => (false, r)
  | _ => (false, s)
  end.

(** [sys.get_int_max_str_digits()] *)
Definition int_max_str_digits : nat := 4300.

Definition invalid_int (s : string) : exn :=
  Exn "ValueError" ("invalid literal for int() with base 10: '" ++ s ++ "'").

Definition too_many_digits (n : nat) : exn :=
  Exn "ValueError"
    ("Exceeds the limit (4300 digits) for integer string conversion: value has "
     ++ DecimalString.NilZero.string_of_uint (Nat.to_uint n)
     ++ " digits; use sys.set_int_max_str_digits() to increase the limit").

(** [int(s)]: surrounding whitespace, an optional sign, decimal digits
    with single underscores between digits, at most 4300 digits. *)
Definition py_int (s : string) : result Z :=
  let '(neg, r) := sign (num_strip s) in
  let '(v, n, rest) := digit_run r 0 0 false in
  match n, rest with
  | O, _ => Raise (invalid_int s)
  | _, String "_" _ => Raise (invalid_int s)
  | _, _ =>
      if (int_max_str_digits <? n)%nat then Raise (too_many_digits n)
      else
        match rest with
        | EmptyString => Ok (if neg then - v else v)
        | _ => Raise (invalid_int s)
        end
  end.

(** [request.args.get(key, default)]: the first value given for [key]. *)
Fixpoint args_get (args : list (string * string)) (key default : string)
  : string :=
  match args with
  | [] => default
  | (k, v) :: rest => if String.eqb k key then v else args_get rest key default
  end.

End Py.

Import Py.

Notation "x <- c ;; k" := (Py.bind c (fun x => k))
  (at level 61, c at next level, right associativity).

(** ** Decoded JSON values *)

Module Json.

(** What [json.load] returns: a float is a binary64 value, an object is a
    [dict], kept as the list of its items. *)
Inductive json :=
| JNull
| JBool (b : bool)
| JInt (n : Z)
| JFloat (x : PrimFloat.float)
| JStr (s : string)
| JList (items : list json)
| JDict (fields : list (string * json)).

Definition type_name (j : json) : string :=
  match j with
  | JNull => "NoneType"
  | JBool _ => "bool"
  | JInt _ => "int"
  | JFloat _ => "float"
  | JStr _ => "str"
  | JList _ => "list"
  | JDict _ => "dict"
  end.

Definition no_attribute (j : json) (attr : string) : exn :=
  Exn "AttributeError"
    ("'" ++ type_name j ++ "' object has no attribute '" ++ attr ++ "'").

Fixpoint lookup (fields : list (string * json)) (key : string) : option json :=
  match fields with
  | [] => None
  | (k, v) :: rest => if String.eqb k key then Some v else lookup rest key
  end.

(** [j.get(key, default)] *)
Definition get (j : json) (key : string) (default : json) : result json :=
  match j with
  | JDict fields =>
      Ok (match lookup fields key with Some v => v | None => default end)
  | _ => Raise (no_attribute j "get")
  end.

(** [j.strip()] *)
Definition strip (j : json) : result string :=
  match j with
  | JStr s => Ok (Py.strip s)
  | _ => Raise (no_attribute j "strip")
  end.

Fixpoint chars (s : string) : list json :=
  match s with
  | EmptyString => []
  | String c s' => JStr (String c EmptyString) :: chars s'
  end.

(** The items [for a in j] visits. *)
Definition iter (j : json) : result (list json) :=
  match j with
  | JList items => Ok items
  | JDict fields => Ok (map (fun kv => JStr (fst kv)) fields)
  | JStr s => Ok (chars s)
  | _ => Raise (Exn "TypeError"
                  ("'" ++ type_name j ++ "' object is not iterable"))
  end.

End Json.

Import Json.

(** ** Source parsers *)

Module Sources.

(** What opening and decoding one of the two telemetry files gives. *)
Inductive source_file :=
| Missing                (* [open] raises *)
| Blank                  (* nothing but whitespace *)
| Malformed              (* text that [json] rejects *)
| Decoded (j : json).

Definition file_not_found : exn :=
  Exn "FileNotFoundError" "No such file or directory".
Definition json_decode_error : exn :=
  Exn "JSONDecodeError" "Expecting value".

(** Runs [body] over [items] in order, appending to [summaries]; an
    exception ends the loop and keeps what was appended before it. *)
Fixpoint collect (body : json -> result string) (items : list json)
  (summaries : list string) : list string * option exn :=
  match items with
  | [] => (summaries, None)
  | a :: rest =>
      match body a with
      | Ok s => collect body rest (summaries ++ [s])
      | Raise e => (summaries, Some e)
      end
  end.

Section WithStr.

(** [str(v)] for a decoded value [v] that is not a [str]. *)
Variable py_str : json -> string.

(** [f"{v}"] *)
Definition fmt (v : json) : string :=
  match v with
  | JStr s => s
  | _ => py_str v
  end.

Definition adsb_format (flight hexcode alt speed lat lon : string) : string :=
  "ADS-B: " ++ flight ++ " (" ++ hexcode ++ ") at " ++ alt
  ++ " ft, speed " ++ speed ++ " knots, position " ++ lat ++ ", " ++ lon.

(** Body of the loop over the aircraft entries. *)
Definition adsb_summary (a : json) : result string :=
  f <- Json.get a "flight" (JStr "unknown") ;;
  flight <- Json.strip f ;;
  hexcode <- Json.get a "hex" (JStr EmptyString) ;;
  alt <- Json.get a "alt_baro" (JStr "unknown") ;;
  speed <- Json.get a "gs" (JStr "unknown") ;;
  lat <- Json.get a "lat" (JStr "?") ;;
  lon <- Json.get a "lon" (JStr "?") ;;
  Ok (adsb_format flight (fmt hexcode) (fmt alt) (fmt speed) (fmt lat) (fmt lon)).

Definition load_adsb (f : source_file) : result json :=
  match f with
  | Missing => Raise file_not_found
  | Blank | Malformed => Raise json_decode_error
  | Decoded j => Ok j
  end.

(** The first [try] block. *)
Definition extract_adsb (f : source_file) (summaries : list string)
  : list string * option exn :=
  match (top <- load_adsb f ;;
         adsb <- Json.get top "aircraft" (JList []) ;;
         Json.iter adsb) with
  | Ok items => collect adsb_summary items summaries
  | Raise e => (summaries, Some e)
  end.

Definition acars_format (flight msg_text : string) : string :=
  "ACARS message from flight " ++ flight ++ ": " ++ msg_text.

(** Body of the loop over the VDL2 entries. *)
Definition vdl2_summary (entry : json) : result string :=
  v <- Json.get entry "vdl2" entry ;;
  acars <- Json.get v "acars" (JDict []) ;;
  f <- Json.get acars "flight" (JStr "unknown") ;;
  flight <- Json.strip f ;;
  msg_text <- Json.get acars "msg_text" (JStr "no message") ;;
  Ok (acars_format flight (fmt msg_text)).

Definition load_vdl2 (f : source_file) : result (list json) :=
  match f with
  | Missing => Raise file_not_found
  | Blank => Raise (Exn "ValueError" "Empty VDL2 file")
  | Malformed => Raise (Exn "ValueError" "JSON parse error: Expecting value")
  | Decoded (JDict fields) => Ok [JDict fields]
  | Decoded (JList items) => Ok items
  | Decoded _ => Raise (Exn "ValueError" "Unrecognized VDL2 format")
  end.

(** The second [try] block. *)
Definition extract_vdl2 (f : source_file) (summaries : list string)
  : list string * option exn :=
  match load_vdl2 f with
  | Ok vdl2_data => collect vdl2_summary vdl2_data summaries
  | Raise e => (summaries, Some e)
  end.

Definition extract_semantic_messages (adsb vdl2 : source_file) : list string :=
  let summaries := [] in
  let summaries := fst (extract_adsb adsb summaries) in
  let summaries := fst (extract_vdl2 vdl2 summaries) in
  summaries.

End WithStr.

(** An aircraft entry the parser reads: an object whose flight id, when
    present, is a string. *)
Definition readable_entry (a : json) : Prop :=
  exists fields,
    a = JDict fields
    /\ (lookup fields "flight" = None
        \/ exists s, lookup fields "flight" = Some (JStr s)).

(** How the six fields of an entry appear in its summary when missing. *)
Definition missing_rendered (fields : list (string * json))
  (flight hexcode alt speed lat lon : string) : Prop :=
  (lookup fields "flight" = None -> flight = "unknown")
  /\ (lookup fields "hex" = None -> hexcode = EmptyString)
  /\ (lookup fields "alt_baro" = None -> alt = "unknown")
  /\ (lookup fields "gs" = None -> speed = "unknown")
  /\ (lookup fields "lat" = None -> lat = "?")
  /\ (lookup fields "lon" = None -> lon = "?").

(** How they appear when present: the flight id stripped of surrounding
    whitespace, the others as [f"{v}"] writes them. *)
Definition present_rendered (py_str : json -> string)
  (fields : list (string * json))
  (flight hexcode alt speed lat lon : string) : Prop :=
  (forall raw, lookup fields "flight" = Some (JStr raw) -> flight = Py.strip raw)
  /\ (forall v, lookup fields "hex" = Some v -> hexcode = fmt py_str v)
  /\ (forall v, lookup fields "alt_baro" = Some v -> alt = fmt py_str v)
  /\ (forall v, lookup fields "gs" = Some v -> speed = fmt py_str v)
  /\ (forall v, lookup fields "lat" = Some v -> lat = fmt py_str v)
  /\ (forall v, lookup fields "lon" = Some v -> lon = fmt py_str v).

Definition summary_of_entry (py_str : json -> string) (a : json) (s : string)
  : Prop :=
  exists fields flight hexcode alt speed lat lon,
    a = JDict fields
    /\ s = adsb_format flight hexcode alt speed lat lon
    /\ missing_rendered fields flight hexcode alt speed lat lon
    /\ present_rendered py_str fields flight hexcode alt speed lat lon.

End Sources.

Import Sources.

(** ** Floating-point interface, vectors and the flat inner-product index *)

Definition EMBED_DIM : nat := 768.

(** The arithmetic numpy and faiss perform, and [float(s)]. *)
Class FloatOps (F : Type) := {
  fzero : F;
  fone : F;
  fadd : F -> F -> F;
  fmul : F -> F -> F;
  fdiv : F -> F -> F;
  fsqrt : F -> F;
  fltb : F -> F -> bool;              (* [a < b] *)
  fleb : F -> F -> bool;              (* [a <= b] *)
  flowest : F;                        (* the lowest finite float32 *)
  float_of_string : string -> option F (* [float(s)], [None] for ValueError *)
}.

(** numpy and faiss are libraries the server calls.  The functions below
    state what these calls do on the server's data: an [IndexFlatIP] is the
    list of the rows added to it, [normalize_L2] scales each row of non-zero
    norm by the inverse of its norm, [add] and [search] assert the row
    dimension, [search] asserts [k > 0], scans the rows in order and keeps
    the [k] best inner products in a heap, which it returns best first,
    each with the position of its row.  Sums run over the components in
    order. *)
Module Faiss.
Section WithFloat.

Context {F : Type} {ops : FloatOps F}.

Local Abbreviation vec := (list F).

Definition fvec_norm_L2sqr (x : vec) : F :=
  fold_left (fun acc a => fadd acc (fmul a a)) x fzero.

(** One row of [faiss.normalize_L2]: a row of norm 0 is left as it is. *)
Definition fvec_renorm_L2 (x : vec) : vec :=
  let nr := fvec_norm_L2sqr x in
  if fltb fzero nr then
    let inv_nr := fdiv fone (fsqrt nr) in
    map (fun a => fmul a inv_nr) x
  else x.

Definition normalize_L2 (m : list vec) : list vec := map fvec_renorm_L2 m.

Definition fvec_inner_product (x y : vec) : F :=
  fold_left (fun acc ab => fadd acc (fmul (fst ab) (snd ab))) (combine x y) fzero.

Definition assertion_error : exn := Exn "AssertionError" EmptyString.

(** [np.array(rows)]: rows of unequal length do not make a matrix. *)
Definition np_array (rows : list vec) : result (list vec) :=
  match rows with
  | [] => Ok []
  | r :: rest =>
      if forallb (fun r' => Nat.eqb (List.length r') (List.length r)) rest
      then Ok rows
      else Raise (Exn "ValueError" "inhomogeneous shape")
  end.

(** [n, d = x.shape] *)
Definition row_dim (m : list vec) : nat :=
  match m with
  | [] => 0%nat
  | r :: _ => List.length r
  end.

(** [index.add(x)] on an [IndexFlatIP(EMBED_DIM)] holding [ix]. *)
Definition index_add (ix m : list vec) : result (list vec) :=
  if Nat.eqb (row_dim m) EMBED_DIM then Ok (ix ++ m)%list
  else Raise assertion_error.

Fixpoint enumerate {A} (l : list A) (i : Z) : list (A * Z) :=
  match l with
  | [] => []
  | a :: t => (a, i) :: enumerate t (i + 1)
  end.

Definition all_scores (ix : list vec) (q : vec) : list (F * Z) :=
  enumerate (map (fvec_inner_product q) ix) 0.

(** [a == b] on scores. *)
Definition feqb (a b : F) : bool := fleb a b && fleb b a.

(** The order of the result heap ([CMin::cmp2]): by score, and by position
    between equal scores. *)
Definition cmp2 (a b : F * Z) : bool :=
  fltb (fst a) (fst b) || (feqb (fst a) (fst b) && (snd a <? snd b)).

(** The heap, kept as the list of its entries from the least to the
    greatest; its top is the head. *)
Fixpoint heap_push (c : F * Z) (heap : list (F * Z)) : list (F * Z) :=
  match heap with
  | [] => [c]
  | h :: t => if cmp2 c h then c :: heap else h :: heap_push c t
  end.

(** [add_result]: a candidate whose score is above that of the top takes
    the place of the top. *)
Definition add_result (heap : list (F * Z)) (c : F * Z) : list (F * Z) :=
  match heap with
  | [] => []
  | top :: rest => if fltb (fst top) (fst c) then heap_push c rest else heap
  end.

(** [heap_reorder]: the entries from the greatest to the least; the
    entries never replaced, of position -1, go last. *)
Definition heap_reorder (heap : list (F * Z)) : list (F * Z) :=
  let used := filter (fun c => negb (snd c =? -1)) (rev heap) in
  (used ++ repeat (flowest, -1) (List.length heap - List.length used))%list.

(** The [k] best candidates; the heap starts with [k] entries
    [(lowest, -1)], and those that no candidate replaced stay in the
    result. *)
Definition top_k (ix : list vec) (q : vec) (k : nat) : list (F * Z) :=
  heap_reorder (fold_left add_result (all_scores ix q) (repeat (flowest, -1) k)).

(** [index.search(x, k)] for a single query row [q]: the pairs
    [zip(scores[0], idxs[0])].  The wrapper asserts [d == self.d] and
    [k > 0] before it searches. *)
Definition index_search (ix : list vec) (q : vec) (k : Z)
  : result (list (F * Z)) :=
  if negb (Nat.eqb (List.length q) EMBED_DIM) then Raise assertion_error
  else if k <=? 0 then Raise assertion_error
  else Ok (top_k ix q (Z.to_nat k)).

End WithFloat.
End Faiss.

Import Faiss.

(** ** The server: shared state, rebuild cycle and query handlers *)

Module Server.
Section WithFloat.

Context {F : Type} {ops : FloatOps F}.

(** Formatting of numbers into text, left uninterpreted:
    [str(v)] of a decoded JSON value, [f"{x}"] and [f"{x:.2f}"] of a float. *)
Variable py_str : json -> string.
Variable float_str : F -> string.
Variable float_2f : F -> string.

(** What the process reads from outside during one rebuild or request. *)
Record world := World {
  adsb_file : source_file;                         (* ADS_B_FILE *)
  vdl2_file : source_file;                         (* VDL2_FILE *)
  embeddings : string -> result (list F);          (* ollama embeddings *)
  chat : string -> string -> string -> result string;
                              (* ollama chat: model, system prompt, user text *)
  index_file_writable : bool;                      (* INDEX_FILE *)
  meta_file_writable : bool                        (* META_FILE *)
}.

(** The module globals [index] and [metadata], each with the identity of
    the object it is bound to, and the two persisted files. *)
Record state := State {
  index_obj : nat;
  index : list (list F);
  metadata_obj : nat;
  metadata : list string;
  next_obj : nat;
  index_file : option (list (list F));
  meta_file : option (list string)
}.

(** [index = faiss.IndexFlatIP(EMBED_DIM)] binds a new, empty object. *)
Definition rebind_index (s : state) : state :=
  State (next_obj s) [] (metadata_obj s) (metadata s) (S (next_obj s))
    (index_file s) (meta_file s).

(** [metadata = []] binds a new, empty list. *)
Definition rebind_metadata (s : state) : state :=
  State (index_obj s) (index s) (next_obj s) [] (S (next_obj s))
    (index_file s) (meta_file s).

(** [index.add(...)] changes the bound object in place. *)
Definition set_index_contents (s : state) (vectors : list (list F)) : state :=
  State (index_obj s) vectors (metadata_obj s) (metadata s) (next_obj s)
    (index_file s) (meta_file s).

(** [metadata.extend(extra)] changes the bound list in place. *)
Definition extend_metadata (s : state) (extra : list string) : state :=
  State (index_obj s) (index s) (metadata_obj s) (metadata s ++ extra)
    (next_obj s) (index_file s) (meta_file s).

Definition write_index_file (s : state) : state :=
  State (index_obj s) (index s) (metadata_obj s) (metadata s) (next_obj s)
    (Some (index s)) (meta_file s).

Definition write_meta_file (s : state) : state :=
  State (index_obj s) (index s) (metadata_obj s) (metadata s) (next_obj s)
    (index_file s) (Some (metadata s)).

Definition get_embedding (W : world) (text : string) : result (list F) :=
  emb <- embeddings W text ;;
  Ok (fvec_renorm_L2 emb).

(** The embedding loop of [rebuild_index]: a failed item is skipped. *)
Fixpoint embed_all (W : world) (summaries : list string) : list (list F) :=
  match summaries with
  | [] => []
  | msg :: rest =>
      match get_embedding W msg with
      | Ok emb => emb :: embed_all W rest
      | Raise _ => embed_all W rest
      end
  end.

(** The [try] block that saves the index and the metadata. *)
Definition persist (W : world) (s : state) : list state :=
  if index_file_writable W then
    let s1 := write_index_file s in
    if meta_file_writable W then [s1; write_meta_file s1] else [s1]
  else [].

(** One run of [rebuild_index]: the shared state after each statement that
    assigns or changes a global or a file, in order, and the exception that
    ended the run, if one did. *)
Record run := Run { trace : list state; raised : option exn }.

Definition rebuild_run (W : world) (st : state) : run :=
  let summaries := extract_semantic_messages py_str (adsb_file W) (vdl2_file W) in
  if negb (truthy_list summaries) then Run [] None
  else
    let s1 := rebind_index st in
    let s2 := rebind_metadata s1 in
    let embeddings_list := embed_all W summaries in
    if truthy_list embeddings_list then
      match np_array embeddings_list with
      | Raise e => Run [s1; s2] (Some e)
      | Ok emb_matrix =>
          let emb_matrix := normalize_L2 emb_matrix in
          match index_add (index s2) emb_matrix with
          | Raise e => Run [s1; s2] (Some e)
          | Ok vectors =>
              let s3 := set_index_contents s2 vectors in
              let s4 :=
                extend_metadata s3
                  (firstn (List.length embeddings_list) summaries) in
              Run ([s1; s2; s3; s4] ++ persist W s4) None
          end
      end
    else Run [s1; s2] None.

(** The state [rebuild_index] leaves behind. *)
Definition rebuild_index (W : world) (st : state) : state :=
  last (trace (rebuild_run W st)) st.

(** *** Context assembly and the generation call *)

Definition nl : string := String (ascii_of_nat 10) EmptyString.

(** ["\n".join(lines)] *)
Fixpoint join_lines (lines : list string) : string :=
  match lines with
  | [] => EmptyString
  | [l] => l
  | l :: rest => l ++ nl ++ join_lines rest
  end.

Definition no_data_prompt : string :=
  "You are an aviation radar assistant. I don't have any current aviation data available right now, but I can help with general aviation questions and guidance.".

Definition context_prompt (context_messages : list string) : string :=
  let context_text := join_lines (map (fun msg => "- " ++ msg) context_messages) in
  "You are an aviation radar assistant with access to real-time aircraft data. " ++ nl
  ++ "Use the following current aviation information to answer questions:" ++ nl
  ++ nl
  ++ "CURRENT AVIATION DATA:" ++ nl
  ++ context_text ++ nl
  ++ nl
  ++ "Guidelines:" ++ nl
  ++ "- Be conversational and helpful" ++ nl
  ++ "- Focus on aviation safety and operational information" ++ nl
  ++ "- If asked about specific flights, reference the data provided" ++ nl
  ++ "- If the data doesn't contain what's asked, say so clearly" ++ nl
  ++ "- Use aviation terminology appropriately" ++ nl
  ++ "- Keep responses concise but informative".

Definition system_prompt (context_messages : list string) : string :=
  if truthy_list context_messages then context_prompt context_messages
  else no_data_prompt.

Definition generate_chat_response (W : world) (query : string)
  (context_messages : list string) (chat_model : string) : string :=
  match chat W chat_model (system_prompt context_messages) query with
  | Ok content => content
  | Raise e => "Chat model error: " ++ exn_msg e
  end.

(** *** Responses *)

Record hit := Hit { text : string; confidence : F; score : F }.

Record debug_info := Debug {
  query_embedding_shape : nat * nat;
  dbg_search_k : Z;
  raw_scores : list F;
  raw_indices : list Z;
  dbg_threshold : F;
  metadata_count : nat;
  best_matches_regardless_of_threshold : option (list (string * F))
}.

(** The JSON object a handler returns. *)
Inductive response :=
| ErrorResponse (error : string) (query : option string)
| SimpleResponse (query : string) (results : list string)
    (debug : option debug_info)
| DetailedResponse (query : string) (threshold_used : F)
    (total_indexed results_found : nat) (results : list hit + list string)
    (best_match_confidence : F) (debug : option debug_info)
| ChatResponse (query response_text : string) (context_used : nat)
    (context_messages : option (list string)) (model : string)
    (threshold_used : F).

(** [float(s)] *)
Definition py_float (s : string) : result F :=
  match float_of_string s with
  | Some x => Ok x
  | None =>
      Raise (Exn "ValueError" ("could not convert string to float: '" ++ s ++ "'"))
  end.

Fixpoint args_lookup (args : list (string * string)) (key : string)
  : option string :=
  match args with
  | [] => None
  | (k, v) :: rest => if String.eqb k key then Some v else args_lookup rest key
  end.

(** [request.args.get(key) == "true"] *)
Definition arg_is_true (args : list (string * string)) (key : string) : bool :=
  match args_lookup args key with
  | Some v => String.eqb v "true"
  | None => false
  end.

Definition len {A} (l : list A) : Z := Z.of_nat (List.length l).

(** The filtering loop shared by both handlers:
    [if idx < len(metadata) and score >= threshold: ... metadata[idx] ...] *)
Fixpoint filter_hits (meta : list string) (threshold : F)
  (candidates : list (F * Z)) : result (list hit) :=
  match candidates with
  | [] => Ok []
  | (sc, idx) :: rest =>
      if (idx <? len meta) && fleb threshold sc then
        t <- getitem meta idx ;;
        more <- filter_hits meta threshold rest ;;
        Ok (Hit t sc sc :: more)
      else filter_hits meta threshold rest
  end.

(** The entry the loop appends for a candidate: [metadata[idx]] with the
    score, where a negative [idx] counts from the end. *)
Definition hit_of (meta : list string) (c : F * Z) : hit :=
  Hit (match getitem meta (snd c) with Ok t => t | Raise _ => EmptyString end)
    (fst c) (fst c).

(** *** /chat *)

Definition chat_context (W : world) (st : state) (query : string)
  (threshold : F) (max_context : Z) : result (list string) :=
  if truthy_list (metadata st) then
    query_emb <- get_embedding W query ;;
    found <- index_search (index st) query_emb
               (Z.min (max_context * 2) (len (metadata st))) ;;
    hits <- filter_hits (metadata st) threshold found ;;
    Ok (slice_to max_context (map text hits))
  else Ok [].

Definition chat_endpoint (W : world) (st : state)
  (args : list (string * string)) : result response :=
  let query := args_get args "q" EmptyString in
  threshold <- py_float (args_get args "threshold" "0.3") ;;
  max_context <- py_int (args_get args "max_context" "3") ;;
  let chat_model := args_get args "model" "gemma3:4b" in
  if negb (truthy_str query) then
    Ok (ErrorResponse "Missing query parameter 'q'" None)
  else
    match chat_context W st query threshold max_context with
    | Ok context_messages =>
        let chat_response :=
          generate_chat_response W query context_messages chat_model in
        Ok (ChatResponse query chat_response (List.length context_messages)
              (if arg_is_true args "show_context"
               then Some context_messages else None)
              chat_model threshold)
    | Raise e => Ok (ErrorResponse ("Chat error: " ++ exn_msg e) (Some query))
    end.

(** *** /ask *)

(** The debug-only loop over the three best raw candidates. *)
Fixpoint best_matches (meta : list string) (candidates : list (F * Z))
  : result (list (string * F)) :=
  match candidates with
  | [] => Ok []
  | (sc, idx) :: rest =>
      if idx <? len meta then
        t <- getitem meta idx ;;
        more <- best_matches meta rest ;;
        Ok ((str_prefix 100 t ++ "...", sc) :: more)
      else best_matches meta rest
  end.

Definition no_relevant_detailed : string :=
  "No relevant messages found above confidence threshold.".

Definition no_relevant_simple (threshold : F) : string :=
  "No relevant messages found above confidence threshold "
  ++ float_str threshold ++ ". Try lowering threshold with &threshold=0.3".

Definition simple_line (show_confidence : bool) (h : hit) : string :=
  let confidence_str :=
    if show_confidence
    then " (confidence: " ++ float_2f (confidence h) ++ ")"
    else EmptyString in
  text h ++ confidence_str.

(** The response built from the truncated [filtered_results]. *)
Definition format_response (args : list (string * string)) (query : string)
  (threshold : F) (total_indexed : nat) (filtered_results : list hit)
  (debug_mode : bool) (dbg : debug_info) : response :=
  let attached := if debug_mode then Some dbg else None in
  if String.eqb (args_get args "format" "simple") "detailed" then
    DetailedResponse query threshold total_indexed
      (List.length filtered_results)
      (if truthy_list filtered_results then inl filtered_results
       else inr [no_relevant_detailed])
      (match filtered_results with
       | h :: _ => confidence h
       | [] => fzero
       end)
      attached
  else if truthy_list filtered_results then
    SimpleResponse query
      (map (simple_line (arg_is_true args "show_confidence")) filtered_results)
      attached
  else SimpleResponse query [no_relevant_simple threshold] attached.

(** The [try] block of [ask_question]. *)
Definition ask_search (W : world) (st : state) (args : list (string * string))
  (query : string) (threshold : F) (max_results : Z) (debug_mode : bool)
  : result response :=
  query_emb <- get_embedding W query ;;
  let search_k := Z.min (max_results * 3) (len (metadata st)) in
  found <- index_search (index st) query_emb search_k ;;
  let dbg :=
    Debug (1%nat, List.length query_emb) search_k
      (firstn 5 (map fst found)) (firstn 5 (map snd found))
      threshold (List.length (metadata st)) None in
  filtered_results <- filter_hits (metadata st) threshold found ;;
  dbg <- (if negb (truthy_list filtered_results) && debug_mode then
            best <- best_matches (metadata st) (firstn 3 found) ;;
            Ok (Debug (query_embedding_shape dbg) (dbg_search_k dbg)
                  (raw_scores dbg) (raw_indices dbg) (dbg_threshold dbg)
                  (metadata_count dbg) (Some best))
          else Ok dbg) ;;
  let filtered_results := slice_to max_results filtered_results in
  Ok (format_response args query threshold (List.length (metadata st))
        filtered_results debug_mode dbg).

Definition no_indexed_data : string :=
  "No indexed data available. Please wait for initial indexing to complete.".

Definition ask_question (W : world) (st : state)
  (args : list (string * string)) : result response :=
  let query := args_get args "q" EmptyString in
  threshold <- py_float (args_get args "threshold" "0.3") ;;
  max_results <- py_int (args_get args "max_results" "5") ;;
  let debug_mode := String.eqb (lower (args_get args "debug" "false")) "true" in
  if negb (truthy_str query) then
    Ok (ErrorResponse "Missing query parameter 'q'" None)
  else if negb (truthy_list (metadata st)) then
    Ok (ErrorResponse no_indexed_data None)
  else
    match ask_search W st args query threshold max_results debug_mode with
    | Ok r => Ok r
    | Raise e => Ok (ErrorResponse ("Search error: " ++ exn_msg e) (Some query))
    end.

End WithFloat.
End Server.

(** ** Two instances of the floating-point interface *)

Module Decimal.

(** What [float(s)] reads: an infinity, a NaN, or the decimal number
    [(-1)^neg * m * 10^e]. *)
Inductive literal :=
| Inf (neg : bool)
| Nan
| Dec (neg : bool) (m : Z) (e : Z).

(** The exponent part, empty or [e] or [E], an optional sign and digits,
    up to the end of the text. *)
Definition exponent (s : string) : option Z :=
  match s with
  | EmptyString => Some 0
  | String c r =>
      if (Ascii.eqb c "e" || Ascii.eqb c "E")%bool then
        let '(neg, r) := sign r in
        match digit_run r 0 0 false with
        | (v, S _, EmptyString) => Some (if neg then - v else v)
        | _ => None
        end
      else None
  end.

(** Digits, an optional point and digits, with a digit on at least one side
    of the point, and the exponent part. *)
Definition number (neg : bool) (s : string) : option literal :=
  let '(ip, n_ip, s1) := digit_run s 0 0 false in
  match s1 with
  | String "." s2 =>
      let '(m, n_fp, s3) := digit_run s2 ip 0 false in
      if (n_ip + n_fp =? 0)%nat then None
      else option_map (fun e => Dec neg m (e - Z.of_nat n_fp)) (exponent s3)
  | _ =>
      if (n_ip =? 0)%nat then None
      else option_map (fun e => Dec neg ip e) (exponent s1)
  end.

(** The grammar of [float(s)]: surrounding whitespace, an optional sign,
    then [inf], [infinity] or [nan] in any case, or a decimal number. *)
Definition float_literal (s : string) : option literal :=
  let '(neg, r) := sign (num_strip s) in
  let w := lower r in
  if (String.eqb w "inf" || String.eqb w "infinity")%bool then Some (Inf neg)
  else if String.eqb w "nan" then Some Nan
  else number neg r.

(** The binary float of precision [prec] nearest to a literal, ties to
    even.  A negative power of ten is divided out with [prec + 3] more bits
    than the quotient needs, and a last bit that records a remainder. *)
Definition round_literal (prec emax : Z) (l : literal) : spec_float :=
  match l with
  | Inf neg => S754_infinity neg
  | Nan => S754_nan
  | Dec neg m e =>
      if m =? 0 then S754_zero neg
      else if 0 <=? e then
        binary_normalize prec emax ((if neg then - m else m) * 10 ^ e) 0 false
      else
        let d := 10 ^ (- e) in
        let k := prec + 3 + Z.log2_up d in
        let q := (m * 2 ^ k) / d in
        let sticky := if (m * 2 ^ k) mod d =? 0 then 0 else 1 in
        let m' := 2 * q + sticky in
        binary_normalize prec emax (if neg then - m' else m') (- k - 1) false
  end.

End Decimal.

(** Binary64 machine arithmetic; [float(s)] is the binary64 value nearest
    to the literal. *)
Definition float_of_Z (n : Z) : PrimFloat.float :=
  SF2Prim (binary_normalize 53 1024 n 0 false).

Definition float_of_decimal (s : string) : option PrimFloat.float :=
  option_map (fun l => SF2Prim (Decimal.round_literal 53 1024 l))
    (Decimal.float_literal s).

#[export] Instance binary64_ops : FloatOps PrimFloat.float := {|
  fzero := 0%float;
  fone := 1%float;
  fadd := PrimFloat.add;
  fmul := PrimFloat.mul;
  fdiv := PrimFloat.div;
  fsqrt := PrimFloat.sqrt;
  fltb := PrimFloat.ltb;
  fleb := PrimFloat.leb;
  flowest := (-0x1.fffffep+127)%float;
  float_of_string := float_of_decimal
|}.

(** IEEE binary32, the arithmetic of the float32 arrays of numpy and of the
    faiss index, on the specification floats of the standard library. *)
Module Binary32.

Definition prec : Z := 24.
Definition emax : Z := 128.

Definition of_Z (n : Z) : spec_float := binary_normalize prec emax n 0 false.

(** The cast of a binary64 value to binary32. *)
Definition of_binary64 (x : spec_float) : spec_float :=
  match x with
  | S754_finite s m e =>
      binary_normalize prec emax (if s then Zneg m else Zpos m) e s
  | _ => x
  end.

(** The threshold takes part in [score >= threshold] beside a float32
    score: it is [float(s)] cast to float32, which is [float(s)] itself
    when that value is a float32. *)
Definition of_string (s : string) : option spec_float :=
  option_map (fun l => of_binary64 (Decimal.round_literal 53 1024 l))
    (Decimal.float_literal s).

Definition ops : FloatOps spec_float := {|
  fzero := S754_zero false;
  fone := of_Z 1;
  fadd := SFadd prec emax;
  fmul := SFmul prec emax;
  fdiv := SFdiv prec emax;
  fsqrt := SFsqrt prec emax;
  fltb := SFltb;
  fleb := SFleb;
  flowest := S754_finite true (2 ^ 24 - 1) 104;
  float_of_string := of_string
|}.

End Binary32.

(** ** Sample data for running the model *)

Module Sample.

(** [str(v)] for the values the sample files hold: [None], booleans and
    integers. *)
Definition str_of_json (v : json) : string :=
  match v with
  | JNull => "None"
  | JBool true => "True"
  | JBool false => "False"
  | JInt n => DecimalString.NilZero.string_of_int (Z.to_int n)
  | _ => "<object>"
  end.

Definition str_of_float (x : PrimFloat.float) : string := "<float>".

Definition entry (flight : string) : json := JDict [("flight", JStr flight)].

Definition aircraft_file (entries : list json) : source_file :=
  Decoded (JDict [("now", JInt 1700000000); ("aircraft", JList entries)]).

(** A unit vector of the embedding dimension along axis [i]. *)
Definition axis {F} {ops : FloatOps F} (i : nat) : list F :=
  (repeat fzero i ++ fone :: repeat fzero (EMBED_DIM - S i))%list.

Definition provider_down : exn := Exn "ConnectionError" "connection refused".

(** The summary of [entry flight]. *)
Definition summary (flight : string) : string :=
  adsb_format flight EmptyString "unknown" "unknown" "?" "?".

Definition canned_chat (model system user : string) : result string :=
  Ok "Nothing to report.".

(** A world whose position-report file holds [entries], whose message
    file is missing, and whose embedding provider is [embed]. *)
Definition world_with {F} (entries : list json)
  (embed : string -> result (list F)) : @Server.world F :=
  Server.World (aircraft_file entries) Missing embed canned_chat true true.

(** A world with neither telemetry file. *)
Definition world_without_sources {F} (embed : string -> result (list F))
  : @Server.world F :=
  Server.World Missing Missing embed canned_chat true true.

(** The process right after start, nothing loaded. *)
Definition fresh_state {F} : @Server.state F :=
  Server.State 0 [] 1 [] 2 None None.

(** A process that published one vector with one summary. *)
Definition published_state {F} {ops : FloatOps F} : @Server.state F :=
  Server.State 0 [axis 0] 1 [summary "DAL9"] 2
    (Some [axis 0]) (Some [summary "DAL9"]).

(** A process that published two vectors with two summaries. *)
Definition two_flights_state {F} {ops : FloatOps F} : @Server.state F :=
  Server.State 0 [axis 0; axis 2] 1 [summary "DAL9"; summary "UAL2"] 2
    (Some [axis 0; axis 2]) (Some [summary "DAL9"; summary "UAL2"]).

(** An embedding provider that fails on the summary of flight AAL1 and
    answers every other text with the unit vector along axis 2. *)
Definition flaky_embed {F} {ops : FloatOps F} (text : string)
  : result (list F) :=
  if String.eqb text (summary "AAL1") then Raise provider_down
  else Ok (axis 2).

Definition steady_embed {F} {ops : FloatOps F} (text : string)
  : result (list F) :=
  Ok (axis 2).

Definition failing_embed {F} (text : string) : result (list F) :=
  Raise provider_down.

End Sample.

(** ** Sample data in binary32 *)

#[export] Existing Instance Binary32.ops.

Module Scenario.

(** The embedding with components [a] and [b] on the first two axes. *)
Definition vector (a b : Z) : list spec_float :=
  (Binary32.of_Z a :: Binary32.of_Z b
   :: repeat (S754_zero false) (EMBED_DIM - 2))%list.

(** An embedding provider that places the summaries of four flights and
    every other text, a query among them, in the plane of these axes. *)
Definition topic_embed (text : string) : result (list spec_float) :=
  if String.eqb text (Sample.summary "DAL9") then Ok (vector 1 2)
  else if String.eqb text (Sample.summary "SWA4") then Ok (vector 0 1)
  else if String.eqb text (Sample.summary "UAL2") then Ok (vector 2 1)
  else Ok (vector 1 0).


Definition str_of_binary32 (x : spec_float) : string := "<float>".

(** The process after its first cycle over four position reports. *)
Definition four_flights : @Server.world spec_float :=
  Sample.world_with
    [Sample.entry "DAL9"; Sample.entry "SWA4"; Sample.entry "UAL2";
     Sample.entry "AAL1"] topic_embed.

Definition four_flights_state : @Server.state spec_float :=
  Server.rebuild_index Sample.str_of_json four_flights Sample.fresh_state.



End Scenario.

(** ** What the specification says of a query that runs during a rebuild *)


(** ** Message entries *)

Module Acars.

(** The [acars] object the parser reads out of a message entry: the entry
    is an object, taken flat or through its [vdl2] member; its [acars]
    member is an object, or absent and then read as [{}]. *)
Definition acars_of (entry : json) (acars : list (string * json)) : Prop :=
  exists fields inner,
    entry = JDict fields
    /\ (lookup fields "vdl2" = Some (JDict inner)
        \/ (lookup fields "vdl2" = None /\ inner = fields))
    /\ (lookup inner "acars" = Some (JDict acars)
        \/ (lookup inner "acars" = None /\ acars = [])).

(** A message entry the parser reads: its flight id, when present, is a
    string. *)
Definition readable_message (entry : json) : Prop :=
  exists acars,
    acars_of entry acars
    /\ (lookup acars "flight" = None
        \/ exists s, lookup acars "flight" = Some (JStr s)).

Definition summary_of_message (py_str : json -> string) (entry : json)
  (s : string) : Prop :=
  exists acars flight msg_text,
    acars_of entry acars
    /\ s = acars_format flight msg_text
    /\ (lookup acars "flight" = None -> flight = "unknown")
    /\ (forall raw, lookup acars "flight" = Some (JStr raw) ->
                    flight = Py.strip raw)
    /\ (lookup acars "msg_text" = None -> msg_text = "no message")
    /\ (forall v, lookup acars "msg_text" = Some v -> msg_text = fmt py_str v).

End Acars.

(** ** Process start and the background loop *)

Module Lifecycle.
Section WithFloat.

Context {F : Type} {ops : FloatOps F}.
Variable py_str : json -> string.

(** The loop of [periodic_rebuild], one world per cycle: [rebuild_index]
    is called with no handler around it, so a cycle that raises ends the
    thread and the later cycles never run. *)
Fixpoint periodic_rebuild (cycles : list (@Server.world F))
  (st : @Server.state F) : @Server.state F * option exn :=
  match cycles with
  | [] => (st, None)
  | W :: rest =>
      let r := Server.rebuild_run py_str W st in
      let st' := last (Server.trace r) st in
      match Server.raised r with
      | Some e => (st', Some e)
      | None => periodic_rebuild rest st'
      end
  end.

(** The [try] block of the main program that loads a saved index: both
    files must exist; [index] is bound to what [faiss.read_index] returns,
    then [metadata] to what [json.load] returns; a read that raises leaves
    the later assignment undone. *)
Definition load_existing (index_readable meta_readable : bool)
  (st : @Server.state F) : @Server.state F :=
  match Server.index_file st, Server.meta_file st with
  | Some vectors, Some summaries =>
      if index_readable then
        let s1 :=
          Server.State (Server.next_obj st) vectors (Server.metadata_obj st)
            (Server.metadata st) (S (Server.next_obj st))
            (Server.index_file st) (Server.meta_file st) in
        if meta_readable then
          Server.State (Server.index_obj s1) (Server.index s1)
            (Server.next_obj s1) summaries (S (Server.next_obj s1))
            (Server.index_file s1) (Server.meta_file s1)
        else s1
      else st
  | _, _ => st
  end.

(** A process that starts on the files another process left: module
    globals as the module body sets them, then [load_existing]. *)
Definition start_process (index_readable meta_readable : bool)
  (disk : @Server.state F) : @Server.state F :=
  load_existing index_readable meta_readable
    (Server.State 0 [] 1 [] 2 (Server.index_file disk) (Server.meta_file disk)).

End WithFloat.
End Lifecycle.

(** ** What a reply may carry *)

Module Replies.
Section WithFloat.

Context {F : Type} {ops : FloatOps F}.

(** What the filtering loop keeps: entries of the metadata, each with a
    score that reaches the threshold. *)
Definition kept (meta : list string) (threshold : F) (h : @Server.hit F)
  : Prop :=
  fleb threshold (Server.score h) = true
  /\ In (Server.text h) meta
  /\ Server.confidence h = Server.score h.

End WithFloat.
End Replies.

(** ** The mock data generator (mock_data_generator.py)

    The program that writes the two telemetry files the server reads.  The
    values its calls to [random] and [time] return are arguments of the
    model. *)

Module Generator.

(** A numeric attribute that holds an [int] or a [float]: [altitude] is
    drawn as an [int] and is a [float] once [update_position] has added
    [vert_rate / 60] to it; [seen] starts as the [int] 0; [rssi] is a
    [float] until [max(-50, min(-5, rssi))] returns one of its bounds. *)
Inductive number :=
| NInt (n : Z)
| NFloat (x : PrimFloat.float).

Definition json_of_number (v : number) : json :=
  match v with
  | NInt n => JInt n
  | NFloat x => JFloat x
  end.

(** [int(x)] on a [float]: truncation toward zero. *)
Definition int_of_float (x : PrimFloat.float) : result Z :=
  match Prim2SF x with
  | S754_nan =>
      Raise (Exn "ValueError" "cannot convert float NaN to integer")
  | S754_infinity _ =>
      Raise (Exn "OverflowError" "cannot convert float infinity to integer")
  | S754_zero _ => Ok 0
  | S754_finite s m e =>
      let a := if 0 <=? e then Zpos m * 2 ^ e else Zpos m / 2 ^ (- e) in
      Ok (if s then - a else a)
  end.

(** [int(v)] *)
Definition int_of (v : number) : result Z :=
  match v with
  | NInt n => Ok n
  | NFloat x => int_of_float x
  end.

(** [float(n)] for an [int] below 2^63 in magnitude. *)
Definition float_of_int (n : Z) : PrimFloat.float :=
  if n <? 0 then PrimFloat.opp (float_of_Z (- n)) else float_of_Z n.

(** [v + n] for an [int] [n]. *)
Definition add_int (v : number) (n : Z) : number :=
  match v with
  | NInt m => NInt (m + n)
  | NFloat x => NFloat (PrimFloat.add x (float_of_int n))
  end.

(** [f"{n}"] for an [int]. *)
Definition str_of_int (n : Z) : string :=
  DecimalString.NilZero.string_of_int (Z.to_int n).

(** [random.choice(seq)], given the integer drawn. *)
Definition choice {A} (draw : nat) (seq : list A) : result A :=
  match nth_error seq (Nat.modulo draw (List.length seq)) with
  | Some a => Ok a
  | None => Raise (Exn "IndexError" "Cannot choose from an empty sequence")
  end.

(** [random.randint(a, b)], given the integer drawn. *)
Definition randint (a b draw : Z) : result Z :=
  if b <? a then Raise (Exn "ValueError" "empty range for randrange()")
  else Ok (a + draw mod (b - a + 1)).

Record aircraft_kind := AircraftKind {
  kind_type : string;
  speed_range : Z * Z;
  alt_range : Z * Z
}.

Record airline := Airline {
  name : string;
  prefix : string;
  range : Z * Z
}.

Definition AIRLINES : list airline :=
  [Airline "DAL" "DAL" (1, 9999);
   Airline "AAL" "AAL" (1, 9999);
   Airline "UAL" "UAL" (1, 9999);
   Airline "SWA" "SWA" (1, 9999);
   Airline "JBU" "JBU" (1, 999)].

Definition ACARS_MESSAGES : list string :=
  ["ENGINE DATA OK";
   "FUEL STATUS: 12500 LBS";
   "WEATHER REQUEST: KATL";
   "POSITION REPORT: 30.5N 087.5W";
   "ETA REVISED: 1430Z";
   "GATE INFO REQUEST";
   "MAINTENANCE: OIL PRESS OK";
   "DISPATCH: ON TIME";
   "CREW REPORT: NORMAL OPS";
   "TURBULENCE REPORT: LIGHT CHOP"].

Record MockAircraft := Aircraft {
  hex : string;
  flight : string;
  aircraft_type : aircraft_kind;
  lat : PrimFloat.float;
  lon : PrimFloat.float;
  track : PrimFloat.float;
  speed : PrimFloat.float;
  altitude : number;
  vert_rate : Z;
  squawk : string;
  seen : number;
  rssi : number
}.

Definition generate_flight_number (airline_draw : nat) (number_draw : Z)
  : result string :=
  airline <- choice airline_draw AIRLINES ;;
  number <- randint (fst (range airline)) (snd (range airline)) number_draw ;;
  Ok (prefix airline ++ str_of_int number).

(** The draws of one call of [generate_vdl2_message]; [t_sec] is
    [int(time.time())], the three levels are the values of
    [round(random.uniform(..), 6)]. *)
Record vdl2_draws := Vdl2Draws {
  t_sec : Z;
  usec_draw : Z;
  freq_draw : nat;
  burst_draw : Z;
  sig_level : PrimFloat.float;
  noise_level : PrimFloat.float;
  freq_skew : PrimFloat.float;
  rseq_draw : Z;
  msg_draw : nat;
  tail_draw : Z;
  letters_draw : nat
}.

Definition generate_vdl2_message (aircraft_hex flight_num : string)
  (d : vdl2_draws) : result json :=
  usec <- randint 100000 999999 (usec_draw d) ;;
  freq <- choice (freq_draw d) [136925000; 136975000; 131525000; 131725000] ;;
  burst_len_octets <- randint 20 200 (burst_draw d) ;;
  rseq <- randint 0 7 (rseq_draw d) ;;
  msg_text <- choice (msg_draw d) ACARS_MESSAGES ;;
  tail_number <- randint 100 999 (tail_draw d) ;;
  tail_letters <- choice (letters_draw d) ["AA"; "AB"; "AC"; "AD"] ;;
  Ok (JDict
    [("vdl2", JDict
       [("app", JDict [("name", JStr "mock_dumpvdl2"); ("ver", JStr "2.3.0")]);
        ("t", JDict [("sec", JInt (t_sec d)); ("usec", JInt usec)]);
        ("freq", JInt freq);
        ("burst_len_octets", JInt burst_len_octets);
        ("hdr_bits_fixed", JInt 0);
        ("octets_corrected_by_fec", JInt 0);
        ("idx", JInt 0);
        ("sig_level", JFloat (sig_level d));
        ("noise_level", JFloat (noise_level d));
        ("freq_skew", JFloat (freq_skew d));
        ("avlc", JDict
           [("src", JDict [("addr", JStr aircraft_hex);
                           ("type", JStr "Aircraft");
                           ("status", JStr "Airborne")]);
            ("dst", JDict [("addr", JStr "234C97");
                           ("type", JStr "Ground station")]);
            ("cr", JStr "Command");
            ("frame_type", JStr "I");
            ("cmd", JStr "Data");
            ("pf", JBool true);
            ("rseq", JInt rseq)]);
        ("acars", JDict
           [("msg_text", JStr msg_text);
            ("flight", JStr flight_num);
            ("tail", JStr ("N" ++ str_of_int tail_number ++ tail_letters));
            ("msg_type", JStr "DATA")])])]).

(** [write_vdl2_data]: [chance] is the outcome of [random.random() < 0.3],
    [writable] whether the file can be opened for writing.  The file is
    opened with mode ['w'], so it holds the one message written last. *)
Definition write_vdl2_data (aircraft_list : list MockAircraft) (chance : bool)
  (pick : nat) (d : vdl2_draws) (writable : bool) (file : source_file)
  : source_file :=
  if truthy_list aircraft_list && chance then
    match (aircraft <- choice pick aircraft_list ;;
           generate_vdl2_message (hex aircraft) (flight aircraft) d) with
    | Ok vdl2_msg => if writable then Decoded vdl2_msg else file
    | Raise _ => file
    end
  else file.

(** The two draws of one call of [to_dict]. *)
Record dict_draws := DictDraws {
  alt_geom_draw : Z;
  messages_draw : Z
}.

Section WithRound.

(** [round(x, ndigits)] on a [float]. *)
Variable py_round : PrimFloat.float -> Z -> PrimFloat.float.

(** [update_position] of the aircraft at a position of the list, with the
    draws of that call; the position arithmetic is not modelled. *)
Variable update_position : nat -> MockAircraft -> MockAircraft.

(** [round(v, ndigits)], [ndigits >= 0]: an [int] is returned as it is. *)
Definition round_number (v : number) (ndigits : Z) : number :=
  match v with
  | NInt n => NInt n
  | NFloat x => NFloat (py_round x ndigits)
  end.

Definition to_dict (self : MockAircraft) (d : dict_draws) : result json :=
  alt_baro <- int_of (altitude self) ;;
  offset <- randint (-100) 100 (alt_geom_draw d) ;;
  alt_geom <- int_of (add_int (altitude self) offset) ;;
  gs <- int_of_float (speed self) ;;
  nav_altitude_mcp <- int_of (altitude self) ;;
  messages <- randint 100 10000 (messages_draw d) ;;
  Ok (JDict
    [("hex", JStr (hex self));
     ("flight", JStr (flight self));
     ("alt_baro", JInt alt_baro);
     ("alt_geom", JInt alt_geom);
     ("gs", JInt gs);
     ("track", JFloat (py_round (track self) 1));
     ("baro_rate", JInt (vert_rate self));
     ("squawk", JStr (squawk self));
     ("emergency", JStr "none");
     ("category", JStr "A3");
     ("nav_qnh", JFloat 1013.25%float);
     ("nav_altitude_mcp", JInt nav_altitude_mcp);
     ("lat", JFloat (py_round (lat self) 6));
     ("lon", JFloat (py_round (lon self) 6));
     ("nic", JInt 8);
     ("rc", JInt 186);
     ("seen_pos", json_of_number (seen self));
     ("version", JInt 2);
     ("nic_baro", JInt 1);
     ("nac_p", JInt 9);
     ("nac_v", JInt 2);
     ("sil", JInt 3);
     ("sil_type", JStr "perhour");
     ("gva", JInt 2);
     ("sda", JInt 2);
     ("alert", JBool false);
     ("spi", JBool false);
     ("mlat", JList []);
     ("tisb", JList []);
     ("messages", JInt messages);
     ("seen", json_of_number (round_number (seen self) 1));
     ("rssi", json_of_number (round_number (rssi self) 1))]).

(** [for aircraft in aircraft_list: aircraft.update_position()], from
    position [i] on. *)
Fixpoint update_all (i : nat) (aircraft_list : list MockAircraft)
  : list MockAircraft :=
  match aircraft_list with
  | [] => []
  | aircraft :: rest => update_position i aircraft :: update_all (S i) rest
  end.

(** [[aircraft.to_dict() for aircraft in aircraft_list]], from position
    [i] on. *)
Fixpoint to_dicts (draws : nat -> dict_draws) (i : nat)
  (aircraft_list : list MockAircraft) : result (list json) :=
  match aircraft_list with
  | [] => Ok []
  | aircraft :: rest =>
      entry <- to_dict aircraft (draws i) ;;
      entries <- to_dicts draws (S i) rest ;;
      Ok (entry :: entries)
  end.

(** [generate_adsb_data]: the aircraft objects as the update loop leaves
    them, and the document or the exception.  [now] is [time.time()]. *)
Definition generate_adsb_data (now : PrimFloat.float) (count_draw : Z)
  (draws : nat -> dict_draws) (aircraft_list : list MockAircraft)
  : list MockAircraft * result json :=
  let aircraft_list := update_all 0 aircraft_list in
  (aircraft_list,
   messages <- randint 100000 999999 count_draw ;;
   aircraft <- to_dicts draws 0 aircraft_list ;;
   Ok (JDict [("now", JFloat now);
              ("messages", JInt messages);
              ("aircraft", JList aircraft)])).

(** [write_adsb_data]: an exception of [generate_adsb_data] or of [open] is
    caught and printed, and the file stays as it was. *)
Definition write_adsb_data (now : PrimFloat.float) (count_draw : Z)
  (draws : nat -> dict_draws) (aircraft_list : list MockAircraft)
  (writable : bool) (file : source_file) : list MockAircraft * source_file :=
  let r := generate_adsb_data now count_draw draws aircraft_list in
  match snd r with
  | Ok adsb_data => (fst r, if writable then Decoded adsb_data else file)
  | Raise _ => (fst r, file)
  end.

End WithRound.

(** The summary the server makes of an aircraft the generator wrote. *)
Definition summary_of_aircraft (py_str : json -> string)
  (py_round : PrimFloat.float -> Z -> PrimFloat.float)
  (aircraft : MockAircraft) (s : string) : Prop :=
  exists alt gs,
    int_of (altitude aircraft) = Ok alt
    /\ int_of_float (speed aircraft) = Ok gs
    /\ s = adsb_format (Py.strip (flight aircraft)) (hex aircraft)
             (py_str (JInt alt)) (py_str (JInt gs))
             (py_str (JFloat (py_round (lat aircraft) 6)))
             (py_str (JFloat (py_round (lon aircraft) 6))).

(** A rounding for sample values that have no more decimals than asked
    for, and one sample aircraft. *)
Definition round_exact (x : PrimFloat.float) (ndigits : Z) : PrimFloat.float :=
  x.

Definition sample_aircraft : MockAircraft :=
  Aircraft "A1B2C3" "DAL42" (AircraftKind "A320" (400, 480) (30000, 39000))
    30.5%float (-87.5)%float 90%float 450.5%float (NFloat 35000.75%float)
    (-600) "1200" (NFloat 1.5%float) (NInt (-5)).

Definition sample_draws : vdl2_draws :=
  Vdl2Draws 1700000000 123456 0 40 (-12.5)%float (-45.25)%float 0.5%float
    3 1 207 2.

End Generator.

(** * Properties *)

(** ** Source parsers *)

Section SourceFacts.

Variable py_str : json -> string.

(** A source that cannot be opened or decoded contributes nothing. *)
Lemma extract_adsb_unusable f acc :
  f = Missing \/ f = Blank \/ f = Malformed ->
  fst (extract_adsb py_str f acc) = acc.
Proof. intros [-> | [-> | ->]]; reflexivity. Qed.

Lemma extract_vdl2_unusable f acc :
  f = Missing \/ f = Blank \/ f = Malformed ->
  fst (extract_vdl2 py_str f acc) = acc.
Proof. intros [-> | [-> | ->]]; reflexivity. Qed.

(** X3: when neither telemetry file can be opened and decoded, no summary
    is extracted. *)
Lemma extract_nothing_from_unusable_sources adsb vdl2 :
  adsb = Missing \/ adsb = Blank \/ adsb = Malformed ->
  vdl2 = Missing \/ vdl2 = Blank \/ vdl2 = Malformed ->
  extract_semantic_messages py_str adsb vdl2 = [].
Proof.
  intros Ha Hv. unfold extract_semantic_messages.
  rewrite (extract_adsb_unusable _ Ha). apply (extract_vdl2_unusable _ Hv).
Qed.

(** The loop appends one summary per item while no item raises. *)
Lemma collect_all_ok body items : forall acc,
  Forall (fun a => exists s, body a = Ok s) items ->
  exists out,
    collect body items acc = ((acc ++ out)%list, None)
    /\ Forall2 (fun a s => body a = Ok s) items out.
Proof.
  induction items as [| a items IH]; intros acc Hall.
  - exists []. cbn. rewrite app_nil_r. split; [reflexivity | constructor].
  - inversion Hall as [| ? ? [s Hs] Hrest]; subst.
    destruct (IH (acc ++ [s])%list Hrest) as [out [Hrun Hpair]].
    exists (s :: out). cbn. rewrite Hs, Hrun, <- app_assoc. cbn.
    split; [reflexivity | constructor; assumption].
Qed.

(** The loop stops at the first item that raises and keeps the rest. *)
Lemma collect_stops_at_raise body good bad rest e acc out :
  Forall2 (fun a s => body a = Ok s) good out ->
  body bad = Raise e ->
  collect body (good ++ bad :: rest) acc = ((acc ++ out)%list, Some e).
Proof.
  intros Hgood Hbad. revert acc.
  induction Hgood as [| a s good out Ha _ IH]; intros acc; cbn.
  - rewrite Hbad, app_nil_r. reflexivity.
  - rewrite Ha, IH, <- app_assoc. reflexivity.
Qed.

Lemma adsb_summary_readable a :
  readable_entry a ->
  exists s, adsb_summary py_str a = Ok s /\ summary_of_entry py_str a s.
Proof.
  intros [fields [-> Hflight]].
  unfold adsb_summary, Json.get, Py.bind.
  assert (Hstrip : exists fl,
    Json.strip (match lookup fields "flight" with
                | Some v => v | None => JStr "unknown" end) = Ok fl
    /\ (lookup fields "flight" = None -> fl = "unknown")
    /\ (forall raw, lookup fields "flight" = Some (JStr raw) ->
                    fl = Py.strip raw)).
  { destruct Hflight as [Hnone | [s Hsome]].
    - rewrite Hnone. exists "unknown".
      split; [reflexivity |]. split; [auto | discriminate].
    - rewrite Hsome. exists (Py.strip s).
      split; [reflexivity |]. split; [discriminate |].
      intros raw Hraw. congruence. }
  destruct Hstrip as [fl [Hfl [Hdef Hraw]]]. rewrite Hfl.
  eexists. split; [reflexivity |].
  exists fields. do 6 eexists. split; [reflexivity |]. split; [reflexivity |].
  split.
  - unfold missing_rendered.
    repeat split; try assumption; intros Hnone; rewrite Hnone; reflexivity.
  - unfold present_rendered.
    repeat split; try assumption; intros v Hv; rewrite Hv; reflexivity.
Qed.

(** An entry that is not readable makes the loop body raise. *)
Lemma adsb_summary_unreadable a :
  ~ readable_entry a -> exists e, adsb_summary py_str a = Raise e.
Proof.
  intros Hbad. unfold adsb_summary.
  destruct a as [| b | n | x | s | items | fields];
    try (eexists; reflexivity).
  cbn [Json.get Py.bind].
  destruct (lookup fields "flight") as [v |] eqn:Hflight.
  - destruct v as [| b | n | x | s | items | inner];
      try (eexists; reflexivity).
    exfalso. apply Hbad. exists fields. split; [reflexivity |].
    right. exists s. exact Hflight.
  - exfalso. apply Hbad. exists fields. split; [reflexivity |].
    left. exact Hflight.
Qed.

(** The loop over items none of which raises. *)
Lemma collect_run body items out : forall acc,
  Forall2 (fun a s => body a = Ok s) items out ->
  collect body items acc = ((acc ++ out)%list, None).
Proof.
  intros acc Hrun. revert acc.
  induction Hrun as [| a s items out Ha _ IH]; intros acc; cbn.
  - rewrite app_nil_r. reflexivity.
  - rewrite Ha, IH, <- app_assoc. reflexivity.
Qed.

(** The summaries of a list of readable entries. *)
Lemma adsb_summaries_of_readable good :
  Forall readable_entry good ->
  exists out,
    Forall2 (fun a s => adsb_summary py_str a = Ok s) good out
    /\ Forall2 (summary_of_entry py_str) good out.
Proof.
  induction 1 as [| a good Ha _ [out [Hrun Hdesc]]].
  - exists []. split; constructor.
  - destruct (adsb_summary_readable Ha) as [s [Hs Hd]].
    exists (s :: out). split; constructor; assumption.
Qed.

(** C5 (as amended): the position-report loop yields exactly one summary,
    in order, for each entry that comes before the first unreadable one (an
    entry that is not an object, or whose flight id is not a string); that
    entry ends the loop with an exception, so it and the entries after it
    yield none, and without such an entry every entry yields its summary.
    In a summary a missing flight id, altitude or ground speed is written
    "unknown", a missing latitude or longitude "?", and a missing
    transponder code as the empty string; a field that is present is
    written as its value. *)
Theorem adsb_one_summary_per_entry top good rest :
  lookup top "aircraft" = Some (JList (good ++ rest)) ->
  Forall readable_entry good ->
  (forall bad later, rest = bad :: later -> ~ readable_entry bad) ->
  exists out e,
    extract_adsb py_str (Decoded (JDict top)) [] = (out, e)
    /\ Forall2 (summary_of_entry py_str) good out
    /\ (e = None <-> rest = []).
Proof.
  intros Htop Hgood Hrest.
  destruct (adsb_summaries_of_readable Hgood) as [out [Hrun Hdesc]].
  exists out. unfold extract_adsb. cbn. rewrite Htop. cbn.
  destruct rest as [| bad later].
  - exists None. rewrite app_nil_r, (collect_run _ [] Hrun).
    split; [reflexivity |]. split; [exact Hdesc | tauto].
  - destruct (adsb_summary_unreadable (Hrest bad later eq_refl)) as [e He].
    exists (Some e).
    rewrite (@collect_stops_at_raise _ _ _ later _ [] _ Hrun He).
    split; [reflexivity |]. split; [exact Hdesc |].
    split; discriminate.
Qed.

End SourceFacts.

(** ** The rebuild cycle *)

(** Splits a run of [rebuild_index] along the branches of the code. *)
Ltac run_cases py_str W st :=
  unfold Server.rebuild_index, Server.rebuild_run;
  destruct (extract_semantic_messages py_str (Server.adsb_file W)
              (Server.vdl2_file W)) as [| msg0 more] eqn:Hsum;
  cbn [truthy_list negb];
  [| destruct (Server.embed_all W (msg0 :: more)) as [| emb0 embs] eqn:Hemb;
     cbn [truthy_list];
     [| destruct (np_array (emb0 :: embs)) as [matrix | e1] eqn:Harr;
        [ destruct (index_add (Server.index
                     (Server.rebind_metadata (Server.rebind_index st)))
                     (normalize_L2 matrix)) as [vectors | e2] eqn:Hadd;
          [ unfold Server.persist;
            destruct (Server.index_file_writable W);
            destruct (Server.meta_file_writable W) | ]
        | ] ] ];
  cbn.

Section RebuildFacts.

Context {F : Type} {ops : FloatOps F}.
Variable py_str : json -> string.

Local Abbreviation rebuild_run := (Server.rebuild_run py_str).
Local Abbreviation rebuild_index := (Server.rebuild_index py_str).
Local Abbreviation summaries_of W :=
  (extract_semantic_messages py_str (Server.adsb_file W) (Server.vdl2_file W)).

Lemma embed_all_length (W : Server.world) summaries :
  (List.length (Server.embed_all W summaries) <= List.length summaries)%nat.
Proof.
  induction summaries as [| msg rest IH]; cbn; [lia |].
  destruct (Server.get_embedding W msg); cbn; lia.
Qed.

Lemma np_array_rows (rows m : list (list F)) : np_array rows = Ok m -> m = rows.
Proof.
  destruct rows as [| r rest]; cbn.
  - intros H. inversion H. reflexivity.
  - destruct (forallb _ rest); intros H; inversion H. reflexivity.
Qed.

Lemma index_add_rows (ix m vectors : list (list F)) :
  index_add ix m = Ok vectors -> vectors = (ix ++ m)%list.
Proof.
  unfold index_add. destruct (Nat.eqb _ _); intros H; inversion H. reflexivity.
Qed.

(** C4: a cycle whose parsers yield no summary changes nothing: no
    statement of [rebuild_index] that touches the globals or the files
    runs, and the published index and metadata are those of before. *)
Theorem rebuild_without_summaries_changes_nothing (W : Server.world) st :
  summaries_of W = [] ->
  Server.trace (rebuild_run W st) = []
  /\ Server.raised (rebuild_run W st) = None
  /\ rebuild_index W st = st.
Proof.
  intros Hnone. unfold Server.rebuild_index, Server.rebuild_run.
  rewrite Hnone. cbn. auto.
Qed.

(** X1: after any cycle that extracted a summary, the index and the
    metadata have the same number of entries. *)
Lemma rebuild_lengths_agree (W : Server.world) st :
  summaries_of W <> [] ->
  List.length (Server.index (rebuild_index W st))
  = List.length (Server.metadata (rebuild_index W st)).
Proof.
  intros Hsome.
  assert (Hpost : forall matrix vectors emb0 embs msg0 more,
    np_array (emb0 :: embs) = Ok matrix ->
    index_add [] (normalize_L2 matrix) = Ok vectors ->
    Server.embed_all W (msg0 :: more) = (emb0 :: embs) ->
    List.length vectors
    = List.length (firstn (S (List.length embs)) (msg0 :: more))).
  { intros matrix vectors emb0 embs msg0 more Harr Hadd Hemb.
    apply np_array_rows in Harr. apply index_add_rows in Hadd. subst.
    cbn [app]. unfold normalize_L2. rewrite length_map, length_firstn.
    pose proof (embed_all_length W (msg0 :: more)) as Hle.
    rewrite Hemb in Hle. cbn [List.length] in *.
    symmetry. apply Nat.min_l. exact Hle. }
  run_cases py_str W st; try congruence; try reflexivity;
    cbn in Hadd; erewrite Hpost by eassumption; reflexivity.
Qed.


(** When no embedding call fails, the loop keeps one vector per summary,
    in order. *)
Lemma embed_all_when_none_fails (W : Server.world) summaries :
  Forall (fun text => exists e, Server.get_embedding W text = Ok e) summaries ->
  Forall2 (fun text e => Server.get_embedding W text = Ok e)
    summaries (Server.embed_all W summaries).
Proof.
  induction 1 as [| text rest [e He] _ IH]; cbn [Server.embed_all].
  - constructor.
  - rewrite He. constructor; assumption.
Qed.

(** X2: a cycle in which every embedding call succeeds and which ends
    without an exception publishes all the summaries, each at the position
    of the vector made from its embedding. *)
Lemma rebuild_pairs_when_none_fails (W : Server.world) st :
  summaries_of W <> [] ->
  Forall (fun text => exists e, Server.get_embedding W text = Ok e)
    (summaries_of W) ->
  Server.raised (rebuild_run W st) = None ->
  Server.metadata (rebuild_index W st) = summaries_of W
  /\ Forall2 (fun text v =>
               exists e, Server.get_embedding W text = Ok e
                         /\ v = fvec_renorm_L2 e)
       (Server.metadata (rebuild_index W st))
       (Server.index (rebuild_index W st)).
Proof.
  intros Hsome Hall.
  pose proof (@embed_all_when_none_fails _ _ Hall) as Hpair.
  assert (Hlen : List.length (Server.embed_all W (summaries_of W))
                 = List.length (summaries_of W))
    by (symmetry; eapply Forall2_length; exact Hpair).
  assert (Hmap : Forall2 (fun text v =>
                   exists e, Server.get_embedding W text = Ok e
                             /\ v = fvec_renorm_L2 e)
                   (summaries_of W)
                   (normalize_L2 (Server.embed_all W (summaries_of W)))).
  { clear Hlen. unfold normalize_L2.
    generalize dependent (Server.embed_all W (summaries_of W)).
    generalize (summaries_of W). clear.
    induction 1 as [| text e rest embs He _ IH]; cbn [map]; constructor.
    - exists e. split; [exact He | reflexivity].
    - exact IH. }
  revert Hpair Hlen Hmap. clear Hall.
  run_cases py_str W st; intros Hpair Hlen Hmap Hraised;
    try congruence; try (cbn in Hlen; discriminate Hlen);
    apply np_array_rows in Harr; apply index_add_rows in Hadd;
    cbn in Hadd; subst matrix vectors;
    injection Hlen as Hlen; rewrite Hlen, firstn_all;
    (split; [reflexivity | exact Hmap]).
Qed.

End RebuildFacts.

(** ** The index search *)

Section SearchFacts.

Context {F : Type} {ops : FloatOps F}.

Lemma heap_push_In (c x : F * Z) heap :
  In x (heap_push c heap) <-> x = c \/ In x heap.
Proof.
  induction heap as [| h t IH]; cbn.
  - intuition congruence.
  - destruct (cmp2 c h); cbn; rewrite ?IH; intuition congruence.
Qed.

Lemma add_result_In (x c : F * Z) heap :
  In x (add_result heap c) -> x = c \/ In x heap.
Proof.
  destruct heap as [| top rest]; cbn [add_result]; [tauto |].
  destruct (fltb (fst top) (fst c)); [| tauto].
  rewrite heap_push_In. cbn. tauto.
Qed.

Lemma fold_add_In (x : F * Z) cands : forall heap,
  In x (fold_left add_result cands heap) -> In x cands \/ In x heap.
Proof.
  induction cands as [| c cands IH]; intros heap; cbn [fold_left].
  - tauto.
  - intros Hin. apply IH in Hin. destruct Hin as [Hin | Hin]; [cbn; tauto |].
    apply add_result_In in Hin. destruct Hin as [-> | Hin]; cbn; tauto.
Qed.

Lemma heap_reorder_In (x : F * Z) heap :
  In x (heap_reorder heap) -> In x heap \/ x = (flowest, -1).
Proof.
  unfold heap_reorder. intros Hin. apply in_app_or in Hin.
  destruct Hin as [Hin | Hin].
  - left. apply filter_In in Hin. destruct Hin as [Hin _].
    apply in_rev. exact Hin.
  - right. eapply repeat_spec. exact Hin.
Qed.

Lemma enumerate_length {A} (l : list A) : forall i,
  List.length (enumerate l i) = List.length l.
Proof. induction l as [| a t IH]; intros i; cbn; [| rewrite IH]; reflexivity. Qed.

Lemma enumerate_In {A} (l : list A) : forall i (x : A * Z),
  In x (enumerate l i) ->
  i <= snd x < i + Z.of_nat (List.length l)
  /\ nth_error l (Z.to_nat (snd x - i)) = Some (fst x).
Proof.
  induction l as [| a t IH]; intros i x; cbn [enumerate In List.length].
  - tauto.
  - intros [<- | Hin].
    + cbn [fst snd]. rewrite Z.sub_diag. cbn. split; [lia | reflexivity].
    + destruct (IH _ _ Hin) as [Hrange Hnth]. split; [lia |].
      replace (Z.to_nat (snd x - i)) with (S (Z.to_nat (snd x - (i + 1)))) by lia.
      exact Hnth.
Qed.

(** Every raw candidate is the inner product of the query with the vector
    at its position. *)
Lemma all_scores_In (ix : list (list F)) q (x : F * Z) :
  In x (all_scores ix q) ->
  0 <= snd x < Z.of_nat (List.length ix)
  /\ exists v, nth_error ix (Z.to_nat (snd x)) = Some v
               /\ fst x = fvec_inner_product q v.
Proof.
  unfold all_scores. intros Hin. apply enumerate_In in Hin.
  rewrite length_map, Z.sub_0_r, Z.add_0_l in Hin. destruct Hin as [Hrange Hnth].
  split; [exact Hrange |]. rewrite nth_error_map in Hnth.
  destruct (nth_error ix (Z.to_nat (snd x))) as [v |]; [| discriminate].
  exists v. split; [reflexivity |]. cbn in Hnth. congruence.
Qed.

Lemma In_firstn {A} (x : A) n : forall l, In x (firstn n l) -> In x l.
Proof.
  induction n as [| n IH]; intros [| a l]; cbn; try tauto.
  intros [-> | Hin]; auto.
Qed.

(** A candidate returned by the search is a raw candidate or an entry of
    the heap that no candidate replaced. *)
Lemma top_k_In (ix : list (list F)) q k (x : F * Z) :
  In x (top_k ix q k) -> In x (all_scores ix q) \/ x = (flowest, -1).
Proof.
  unfold top_k. intros Hin. apply heap_reorder_In in Hin.
  destruct Hin as [Hin | Hin]; [| tauto].
  apply fold_add_In in Hin. destruct Hin as [Hin | Hin]; [tauto |].
  right. eapply repeat_spec. exact Hin.
Qed.

Lemma index_search_returns (ix : list (list F)) q k :
  List.length q = EMBED_DIM -> 0 < k ->
  index_search ix q k = Ok (top_k ix q (Z.to_nat k)).
Proof.
  intros Hd Hk. unfold index_search. rewrite Hd, Nat.eqb_refl. cbn [negb].
  replace (k <=? 0) with false by (symmetry; apply Z.leb_gt; exact Hk).
  reflexivity.
Qed.

Lemma index_search_found (ix : list (list F)) q k found :
  index_search ix q k = Ok found ->
  0 < k /\ List.length q = EMBED_DIM /\ found = top_k ix q (Z.to_nat k).
Proof.
  unfold index_search.
  destruct (Nat.eqb (List.length q) EMBED_DIM) eqn:Hd; cbn [negb]; [| discriminate].
  destruct (k <=? 0) eqn:Hk; [discriminate |].
  intros H. inversion H. apply Nat.eqb_eq in Hd. apply Z.leb_gt in Hk. auto.
Qed.

Lemma index_search_nonpositive (ix : list (list F)) q k :
  k <= 0 -> index_search ix q k = Raise assertion_error.
Proof.
  intros Hk. unfold index_search.
  destruct (negb _); [reflexivity |].
  apply Z.leb_le in Hk. rewrite Hk. reflexivity.
Qed.

End SearchFacts.

(** ** The query handlers *)

Section HandlerFacts.

Context {F : Type} {ops : FloatOps F}.
Variable float_str : F -> string.
Variable float_2f : F -> string.

Local Abbreviation ask_question := (Server.ask_question float_str float_2f).
Local Abbreviation format_response := (Server.format_response float_str float_2f).

Lemma truthy_str_nonempty s : s <> EmptyString -> truthy_str s = true.
Proof. destruct s; [congruence | reflexivity]. Qed.

Lemma truthy_list_nonempty {A} (l : list A) : l <> [] -> truthy_list l = true.
Proof. destruct l; [congruence | reflexivity]. Qed.

(** [l[i]] is defined for [-len(l) <= i < len(l)]. *)
Lemma getitem_valid {A} (l : list A) i :
  - Server.len l <= i < Server.len l -> exists a, getitem l i = Ok a.
Proof.
  unfold Server.len, getitem. intros Hi.
  set (j := if i <? 0 then Z.of_nat (List.length l) + i else i).
  assert (Hj : 0 <= j < Z.of_nat (List.length l)).
  { unfold j. destruct (i <? 0) eqn:Hneg;
      [apply Z.ltb_lt in Hneg | apply Z.ltb_ge in Hneg]; lia. }
  replace ((0 <=? j) && (j <? Z.of_nat (List.length l))) with true
    by (symmetry; apply andb_true_iff; split;
        [apply Z.leb_le | apply Z.ltb_lt]; lia).
  destruct (nth_error l (Z.to_nat j)) as [a |] eqn:Hnth; [eauto |].
  apply nth_error_None in Hnth. lia.
Qed.

(** With every candidate position a valid index of the metadata, the loop
    keeps exactly the candidates with [score >= threshold], in order. *)
Lemma filter_hits_valid meta (threshold : F) found :
  Forall (fun c => - Server.len meta <= snd c < Server.len meta) found ->
  Server.filter_hits meta threshold found
  = Ok (map (Server.hit_of meta)
          (filter (fun c => fleb threshold (fst c)) found)).
Proof.
  induction 1 as [| [sc idx] rest Hc _ IH]; cbn [Server.filter_hits filter map].
  - reflexivity.
  - cbn [fst snd] in *. rewrite IH.
    replace (idx <? Server.len meta) with true
      by (symmetry; apply Z.ltb_lt; lia).
    cbn [andb]. destruct (fleb threshold sc); [| reflexivity].
    destruct (getitem_valid meta Hc) as [a Ha].
    unfold Server.hit_of. cbn [map fst snd]. rewrite Ha. reflexivity.
Qed.

Lemma best_matches_valid meta (found : list (F * Z)) :
  Forall (fun c => - Server.len meta <= snd c < Server.len meta) found ->
  exists best, Server.best_matches meta found = Ok best.
Proof.
  induction 1 as [| [sc idx] rest Hc _ [best IH]]; cbn [Server.best_matches].
  - eauto.
  - cbn [snd] in Hc. rewrite IH. destruct (getitem_valid meta Hc) as [a ->].
    destruct (idx <? Server.len meta); cbn; eauto.
Qed.

Lemma Forall_firstn {A} (P : A -> Prop) n : forall l,
  Forall P l -> Forall P (firstn n l).
Proof.
  induction n as [| n IH]; intros l Hl; [constructor |].
  destruct Hl; cbn; constructor; auto.
Qed.

(** A search over an index that holds one vector per metadata entry
    returns valid indices of the metadata: the position of a vector, or -1
    in an entry that no candidate replaced. *)
Lemma search_positions_valid (st : Server.state) q k found :
  Server.metadata st <> [] ->
  List.length (Server.index st) = List.length (Server.metadata st) ->
  index_search (Server.index st) q k = Ok found ->
  Forall (fun c => - Server.len (Server.metadata st) <= snd c
                   < Server.len (Server.metadata st)) found.
Proof.
  intros Hmeta Hlen Hsearch. apply index_search_found in Hsearch.
  destruct Hsearch as [_ [_ ->]].
  assert (Hpos : 0 < Server.len (Server.metadata st)).
  { unfold Server.len. destruct (Server.metadata st); [congruence | cbn; lia]. }
  apply Forall_forall. intros c Hin. apply top_k_In in Hin.
  destruct Hin as [Hin | ->]; [| cbn; lia].
  apply all_scores_In in Hin. unfold Server.len in *. rewrite <- Hlen. lia.
Qed.

(** The reply of /ask to a request that reaches the filtering loop. *)
Lemma ask_reply (W : Server.world) st args t n q :
  args_get args "q" EmptyString <> EmptyString ->
  Server.py_float (args_get args "threshold" "0.3") = Ok t ->
  py_int (args_get args "max_results" "5") = Ok n ->
  0 < n ->
  Server.metadata st <> [] ->
  List.length (Server.index st) = List.length (Server.metadata st) ->
  Server.get_embedding W (args_get args "q" EmptyString) = Ok q ->
  List.length q = EMBED_DIM ->
  exists found dbg,
    index_search (Server.index st) q
      (Z.min (n * 3) (Server.len (Server.metadata st))) = Ok found
    /\ ask_question W st args
       = Ok (format_response args (args_get args "q" EmptyString) t
               (List.length (Server.metadata st))
               (firstn (Z.to_nat n)
                  (map (Server.hit_of (Server.metadata st))
                     (filter (fun c => fleb t (fst c)) found)))
               (String.eqb (lower (args_get args "debug" "false")) "true")
               dbg).
Proof.
  intros Hq Ht Hn Hpos Hmeta Hlen Hemb Hdim.
  assert (Hk : 0 < Z.min (n * 3) (Server.len (Server.metadata st))).
  { unfold Server.len. destruct (Server.metadata st); [congruence | cbn; lia]. }
  pose proof (index_search_returns (Server.index st) q Hdim Hk) as Hsearch.
  pose proof (search_positions_valid _ _ _ Hmeta Hlen Hsearch) as Hvalid.
  eexists. unfold Server.ask_question. rewrite Ht, Hn. cbn [Py.bind].
  rewrite (truthy_str_nonempty Hq), (truthy_list_nonempty Hmeta).
  cbn [negb]. unfold Server.ask_search. rewrite Hemb. cbn [Py.bind].
  rewrite Hsearch. cbn [Py.bind].
  rewrite (filter_hits_valid _ t Hvalid). cbn [Py.bind].
  unfold slice_to. replace (0 <=? n) with true by (symmetry; apply Z.leb_le; lia).
  destruct (@best_matches_valid _ _ (Forall_firstn 3 Hvalid)) as [best Hbest].
  rewrite Hbest.
  destruct (negb _ && _); cbn [Py.bind]; eexists; split; reflexivity.
Qed.



(** C6: over a non-empty snapshot, the results /ask returns are exactly the
    searched candidates with [score >= threshold], in the order the index
    search returned them, cut to the first [max_results]; each result is
    the metadata entry at the candidate's position with the candidate's
    score.  The reply lists them as objects (detailed format) or as their
    texts (simple format), and carries the one "No relevant messages"
    string when there is none.  The threshold is [float("0.3")] when the
    request gives none. *)
Theorem ask_keeps_candidates_at_or_above_threshold
  (W : Server.world) st args t n q :
  args_get args "q" EmptyString <> EmptyString ->
  Server.py_float (args_get args "threshold" "0.3") = Ok t ->
  py_int (args_get args "max_results" "5") = Ok n ->
  0 < n ->
  Server.metadata st <> [] ->
  List.length (Server.index st) = List.length (Server.metadata st) ->
  Server.get_embedding W (args_get args "q" EmptyString) = Ok q ->
  List.length q = EMBED_DIM ->
  let query := args_get args "q" EmptyString in
  let line (h : Server.hit) :=
    Server.text h
    ++ (if Server.arg_is_true args "show_confidence"
        then " (confidence: " ++ float_2f (Server.confidence h) ++ ")"
        else EmptyString) in
  exists found debug,
    index_search (Server.index st) q
      (Z.min (n * 3) (Server.len (Server.metadata st))) = Ok found
    /\ (Server.args_lookup args "threshold" = None ->
        float_of_string "0.3" = Some t)
    /\ (String.eqb (lower (args_get args "debug" "false")) "true" = false ->
        debug = None)
    /\ let results :=
         firstn (Z.to_nat n)
           (map (Server.hit_of (Server.metadata st))
              (filter (fun c => fleb t (fst c)) found)) in
       ask_question W st args
       = Ok (if String.eqb (args_get args "format" "simple") "detailed" then
               Server.DetailedResponse query t
                 (List.length (Server.metadata st)) (List.length results)
                 (match results with
                  | [] => inr ["No relevant messages found above confidence threshold."]
                  | _ :: _ => inl results
                  end)
                 (match results with
                  | h :: _ => Server.confidence h
                  | [] => fzero
                  end)
                 debug
             else
               Server.SimpleResponse query
                 (match results with
                  | [] => ["No relevant messages found above confidence threshold "
                           ++ float_str t
                           ++ ". Try lowering threshold with &threshold=0.3"]
                  | _ :: _ => map line results
                  end)
                 debug).
Proof.
  intros Hq Ht Hn Hpos Hmeta Hlen Hemb Hdim query line.
  destruct (ask_reply W st args Hq Ht Hn Hpos Hmeta Hlen Hemb Hdim)
    as [found [dbg [Hsearch Hreply]]].
  exists found.
  exists (if String.eqb (lower (args_get args "debug" "false")) "true"
          then Some dbg else None).
  split; [exact Hsearch |]. split.
  { intros Hnone. revert Ht. unfold Server.py_float.
    replace (args_get args "threshold" "0.3") with "0.3".
    - destruct (float_of_string "0.3"); congruence.
    - clear - Hnone. induction args as [| [k v] rest IH]; [reflexivity |].
      cbn in *. destruct (String.eqb k "threshold"); [discriminate | auto]. }
  split; [intros ->; reflexivity |].
  cbv zeta. rewrite Hreply. unfold Server.format_response.
  destruct (String.eqb (args_get args "format" "simple") "detailed");
    destruct (firstn _ _) as [| h more]; reflexivity.
Qed.


(** C9 (as amended): with a query and a non-empty index, a request whose
    [max_results] is zero or negative is answered with the structured
    "Search error" reply: the index search refuses a non-positive number
    of candidates.  The handler itself does not raise. *)
Theorem ask_rejects_nonpositive_max_results (W : Server.world) st args t n :
  args_get args "q" EmptyString <> EmptyString ->
  Server.py_float (args_get args "threshold" "0.3") = Ok t ->
  py_int (args_get args "max_results" "5") = Ok n ->
  n <= 0 ->
  Server.metadata st <> [] ->
  exists msg,
    ask_question W st args
    = Ok (Server.ErrorResponse ("Search error: " ++ msg)
            (Some (args_get args "q" EmptyString)))
    /\ (forall q,
          Server.get_embedding W (args_get args "q" EmptyString) = Ok q ->
          msg = EmptyString).
Proof.
  intros Hq Ht Hn Hneg Hmeta.
  unfold Server.ask_question. rewrite Ht, Hn. cbn [Py.bind].
  rewrite (truthy_str_nonempty Hq), (truthy_list_nonempty Hmeta).
  cbn [negb]. unfold Server.ask_search.
  destruct (Server.get_embedding W _) as [q | e]; cbn [Py.bind].
  - rewrite index_search_nonpositive by lia. cbn [Py.bind].
    exists EmptyString. split; [reflexivity | auto].
  - exists (exn_msg e). split; [reflexivity | discriminate].
Qed.

(** C10: with a query and nothing indexed, /chat does not embed or search;
    it answers with the text generated from the no-data prompt and reports
    zero context messages, where /ask answers with the "no indexed data"
    error. *)
Theorem chat_answers_without_indexed_data (W : Server.world) st args t n :
  args_get args "q" EmptyString <> EmptyString ->
  Server.metadata st = [] ->
  Server.py_float (args_get args "threshold" "0.3") = Ok t ->
  py_int (args_get args "max_context" "3") = Ok n ->
  let query := args_get args "q" EmptyString in
  let chat_model := args_get args "model" "gemma3:4b" in
  Server.chat_context W st query t n = Ok []
  /\ Server.chat_endpoint W st args
     = Ok (Server.ChatResponse query
             (match Server.chat W chat_model Server.no_data_prompt query with
              | Ok content => content
              | Raise e => "Chat model error: " ++ exn_msg e
              end)
             0
             (if Server.arg_is_true args "show_context" then Some [] else None)
             chat_model t)
  /\ (forall m,
        py_int (args_get args "max_results" "5") = Ok m ->
        ask_question W st args
        = Ok (Server.ErrorResponse Server.no_indexed_data None)).
Proof.
  intros Hq Hmeta Ht Hn query chat_model. subst query chat_model.
  assert (Hctx : Server.chat_context W st (args_get args "q" EmptyString) t n
                 = Ok []).
  { unfold Server.chat_context. rewrite Hmeta. reflexivity. }
  split; [exact Hctx |]. split.
  - unfold Server.chat_endpoint. rewrite Ht, Hn. cbn [Py.bind].
    rewrite (truthy_str_nonempty Hq). cbn [negb].
    rewrite Hctx. reflexivity.
  - intros m Hm. unfold Server.ask_question. rewrite Ht, Hm. cbn [Py.bind].
    rewrite (truthy_str_nonempty Hq), Hmeta. reflexivity.
Qed.

End HandlerFacts.

(** ** Runs of the code on sample inputs (binary64 and binary32 arithmetic) *)

Section Runs.

Local Abbreviation F64 := PrimFloat.float.
Local Abbreviation rebuild_index := (Server.rebuild_index Sample.str_of_json).
Local Abbreviation rebuild_run := (Server.rebuild_run Sample.str_of_json).
Local Abbreviation ask_question :=
  (Server.ask_question Sample.str_of_float Sample.str_of_float).
Local Abbreviation chat_endpoint := (@Server.chat_endpoint F64 _).

(** C1: two aircraft are extracted, the embedding of the first summary
    fails and that of the second succeeds.  The rebuilt snapshot holds one
    vector and one summary, but the vector is the embedding of the second
    summary and the summary kept is the first: [summaries[:len(...)]]
    keeps a prefix, not the summaries that were embedded. *)
Theorem rebuild_pairs_vector_with_wrong_summary :
  let W : @Server.world F64 :=
    Sample.world_with [Sample.entry "AAL1"; Sample.entry "UAL2"]
      Sample.flaky_embed in
  let post := rebuild_index W Sample.fresh_state in
  extract_semantic_messages Sample.str_of_json
    (Server.adsb_file W) (Server.vdl2_file W)
  = [Sample.summary "AAL1"; Sample.summary "UAL2"]
  /\ Server.get_embedding W (Sample.summary "AAL1") = Raise Sample.provider_down
  /\ Server.get_embedding W (Sample.summary "UAL2") = Ok (Sample.axis 2)
  /\ Server.index post = [Sample.axis 2]
  /\ Server.metadata post = [Sample.summary "AAL1"].
Proof. vm_compute. repeat split; reflexivity. Qed.

(** C3: one summary is extracted and its embedding fails.  The index and
    the metadata published before are gone: both globals were rebound to
    empty objects before the embedding loop ran. *)
Theorem failed_embeddings_empty_published_snapshot :
  let W : @Server.world F64 :=
    Sample.world_with [Sample.entry "AAL1"] Sample.failing_embed in
  let pre := Sample.published_state in
  let post := rebuild_index W pre in
  extract_semantic_messages Sample.str_of_json
    (Server.adsb_file W) (Server.vdl2_file W) = [Sample.summary "AAL1"]
  /\ Server.embed_all W [Sample.summary "AAL1"] = []
  /\ Server.index pre = [Sample.axis 0]
  /\ Server.metadata pre = [Sample.summary "DAL9"]
  /\ Server.index post = []
  /\ Server.metadata post = []
  /\ Server.raised (rebuild_run W pre) = None.
Proof. vm_compute. repeat split; reflexivity. Qed.

(** C7: a threshold, [max_results] or [max_context] that is not a number
    makes [float] or [int] raise before the handler enters its [try]
    block, so the exception leaves the view function. *)
Theorem malformed_parameter_raises_out_of_handler :
  let W : @Server.world F64 := Sample.world_with [] Sample.steady_embed in
  let st := Sample.published_state in
  ask_question W st [("q", "fuel status"); ("threshold", "abc")]
  = Raise (Exn "ValueError" "could not convert string to float: 'abc'")
  /\ ask_question W st [("q", "fuel status"); ("max_results", "many")]
     = Raise (Exn "ValueError" "invalid literal for int() with base 10: 'many'")
  /\ chat_endpoint W st [("q", "fuel status"); ("max_context", "3.5")]
     = Raise (Exn "ValueError" "invalid literal for int() with base 10: '3.5'")
  /\ chat_endpoint W st [("q", "fuel status"); ("threshold", "high")]
     = Raise (Exn "ValueError" "could not convert string to float: 'high'").
Proof. vm_compute. repeat split; reflexivity. Qed.



Lemma rebuild_without_summaries_witness :
  let W : @Server.world F64 :=
    Sample.world_without_sources Sample.steady_embed in
  Server.trace (rebuild_run W Sample.published_state) = []
  /\ Server.raised (rebuild_run W Sample.published_state) = None
  /\ rebuild_index W Sample.published_state = Sample.published_state.
Proof.
  cbv zeta.
  apply (@rebuild_without_summaries_changes_nothing F64 _ Sample.str_of_json).
  reflexivity.
Defined.

(** C5, refuted as stated: an entry without a transponder code yields a
    summary whose parentheses are empty; the default of [hex] is the empty
    string. *)
Lemma missing_transponder_code_renders_empty :
  lookup [("flight", JStr "UAL2 ")] "hex" = None
  /\ extract_adsb Sample.str_of_json
       (Sample.aircraft_file [JDict [("flight", JStr "UAL2 ")]]) []
     = (["ADS-B: UAL2 () at unknown ft, speed unknown knots, position ?, ?"],
        None)
  /\ adsb_format "UAL2" EmptyString "unknown" "unknown" "?" "?"
     = "ADS-B: UAL2 () at unknown ft, speed unknown knots, position ?, ?".
Proof. vm_compute. repeat split; reflexivity. Qed.

Lemma adsb_one_summary_per_entry_witness :
  let good := [JDict []; Sample.entry "UAL2"] in
  let rest := [JInt 7; Sample.entry "DAL9"] in
  exists out e,
    extract_adsb Sample.str_of_json
      (Decoded (JDict [("now", JInt 1700000000);
                       ("aircraft", JList (good ++ rest))]))
      []
    = (out, e)
    /\ Forall2 (summary_of_entry Sample.str_of_json) good out
    /\ (e = None <-> rest = []).
Proof.
  cbv zeta.
  apply (@adsb_one_summary_per_entry Sample.str_of_json
           [("now", JInt 1700000000);
            ("aircraft",
             JList ([JDict []; Sample.entry "UAL2"]
                    ++ [JInt 7; Sample.entry "DAL9"]))]
           [JDict []; Sample.entry "UAL2"] [JInt 7; Sample.entry "DAL9"]).
  - reflexivity.
  - repeat constructor.
    + exists []. split; [reflexivity | left; reflexivity].
    + exists [("flight", JStr "UAL2")]. split; [reflexivity |].
      right. exists "UAL2". reflexivity.
  - intros bad later Hrest [fields [Hbad _]].
    injection Hrest as <- _. discriminate Hbad.
Defined.

(** C9, refuted as stated: with [max_results=0] (and with a negative
    value) the reply of /ask is the "Search error" object. *)
Lemma zero_max_results_is_answered_with_error :
  let W : @Server.world F64 := Sample.world_with [] Sample.steady_embed in
  let st := Sample.published_state in
  ask_question W st [("q", "fuel status"); ("max_results", "0")]
  = Ok (Server.ErrorResponse "Search error: " (Some "fuel status"))
  /\ ask_question W st [("q", "fuel status"); ("max_results", "-1")]
     = Ok (Server.ErrorResponse "Search error: " (Some "fuel status")).
Proof. vm_compute. split; reflexivity. Qed.

Lemma ask_rejects_nonpositive_max_results_witness :
  let W : @Server.world F64 := Sample.world_with [] Sample.steady_embed in
  let args := [("q", "fuel status"); ("max_results", "0")] in
  exists msg,
    ask_question W Sample.published_state args
    = Ok (Server.ErrorResponse ("Search error: " ++ msg)
            (Some (args_get args "q" EmptyString)))
    /\ (forall q,
          Server.get_embedding W (args_get args "q" EmptyString) = Ok q ->
          msg = EmptyString).
Proof.
  cbv zeta.
  apply (@ask_rejects_nonpositive_max_results F64 _ Sample.str_of_float
           Sample.str_of_float _ _ _ (float_of_Z 3 / float_of_Z 10)%float 0).
  - discriminate.
  - reflexivity.
  - reflexivity.
  - lia.
  - discriminate.
Defined.

Lemma chat_answers_without_indexed_data_witness :
  let W : @Server.world F64 := Sample.world_with [] Sample.steady_embed in
  let args := [("q", "any traffic nearby?")] in
  let t := (float_of_Z 3 / float_of_Z 10)%float in
  Server.chat_context W Sample.fresh_state "any traffic nearby?" t 3 = Ok []
  /\ chat_endpoint W Sample.fresh_state args
     = Ok (Server.ChatResponse "any traffic nearby?" "Nothing to report." 0
             None "gemma3:4b" t)
  /\ (forall m,
        py_int (args_get args "max_results" "5") = Ok m ->
        ask_question W Sample.fresh_state args
        = Ok (Server.ErrorResponse Server.no_indexed_data None)).
Proof.
  cbv zeta.
  apply (@chat_answers_without_indexed_data F64 _ Sample.str_of_float
           Sample.str_of_float
           (Sample.world_with [] Sample.steady_embed) Sample.fresh_state
           [("q", "any traffic nearby?")]).
  - discriminate.
  - reflexivity.
  - reflexivity.
  - reflexivity.
Defined.

(** Four summaries are indexed in the order DAL9, SWA4, UAL2, AAL1; against
    the query they score about 0.45, 0, 0.89 and 1.  With threshold 0.4
    and [max_results=2] the search returns all four, best first, the loop
    drops SWA4, and the reply keeps the first two of the other three. *)
Lemma ask_keeps_candidates_witness :
  let W := Scenario.four_flights in
  let st := Scenario.four_flights_state in
  let args := [("q", "fuel status"); ("threshold", "0.4"); ("max_results", "2")] in
  (exists t q,
     Server.py_float (args_get args "threshold" "0.3") = Ok t
     /\ Server.get_embedding W (args_get args "q" EmptyString) = Ok q
     /\ let line (h : Server.hit) :=
          Server.text h
          ++ (if Server.arg_is_true args "show_confidence"
              then " (confidence: "
                   ++ Scenario.str_of_binary32 (Server.confidence h) ++ ")"
              else EmptyString) in
        exists found debug,
          index_search (Server.index st) q
            (Z.min (2 * 3) (Server.len (Server.metadata st))) = Ok found
          /\ (Server.args_lookup args "threshold" = None ->
              float_of_string "0.3" = Some t)
          /\ (String.eqb (lower (args_get args "debug" "false")) "true" = false ->
              debug = None)
          /\ let results :=
               firstn (Z.to_nat 2)
                 (map (Server.hit_of (Server.metadata st))
                    (filter (fun c => fleb t (fst c)) found)) in
             Server.ask_question Scenario.str_of_binary32
               Scenario.str_of_binary32 W st args
             = Ok (if String.eqb (args_get args "format" "simple") "detailed" then
                     Server.DetailedResponse (args_get args "q" EmptyString) t
                       (List.length (Server.metadata st)) (List.length results)
                       (match results with
                        | [] => inr ["No relevant messages found above confidence threshold."]
                        | _ :: _ => inl results
                        end)
                       (match results with
                        | h :: _ => Server.confidence h
                        | [] => fzero
                        end)
                       debug
                   else
                     Server.SimpleResponse (args_get args "q" EmptyString)
                       (match results with
                        | [] => ["No relevant messages found above confidence threshold "
                                 ++ Scenario.str_of_binary32 t
                                 ++ ". Try lowering threshold with &threshold=0.3"]
                        | _ :: _ => map line results
                        end)
                       debug))
  /\ Server.metadata st
     = [Sample.summary "DAL9"; Sample.summary "SWA4"; Sample.summary "UAL2";
        Sample.summary "AAL1"]
  /\ (exists found,
        index_search (Server.index st) (fvec_renorm_L2 (Scenario.vector 1 0)) 4
        = Ok found
        /\ map snd found = [3; 2; 0; 1])
  /\ Server.ask_question Scenario.str_of_binary32 Scenario.str_of_binary32
       W st args
     = Ok (Server.SimpleResponse "fuel status"
             [Sample.summary "AAL1"; Sample.summary "UAL2"] None).
Proof.
  cbv zeta. split.
  - eexists. eexists.
    split; [vm_compute; reflexivity |]. split; [vm_compute; reflexivity |].
    apply (@ask_keeps_candidates_at_or_above_threshold spec_float _
             Scenario.str_of_binary32 Scenario.str_of_binary32
             Scenario.four_flights Scenario.four_flights_state
             [("q", "fuel status"); ("threshold", "0.4"); ("max_results", "2")]
             _ 2 _).
    + discriminate.
    + vm_compute. reflexivity.
    + reflexivity.
    + lia.
    + vm_compute. discriminate.
    + vm_compute. reflexivity.
    + vm_compute. reflexivity.
    + vm_compute. reflexivity.
  - split; [vm_compute; reflexivity |]. split.
    + eexists. split; vm_compute; reflexivity.
    + vm_compute. reflexivity.
Defined.



Lemma rebuild_lengths_agree_witness :
  let W : @Server.world F64 :=
    Sample.world_with [Sample.entry "AAL1"; Sample.entry "UAL2"]
      Sample.flaky_embed in
  List.length (Server.index (rebuild_index W Sample.published_state))
  = List.length (Server.metadata (rebuild_index W Sample.published_state)).
Proof.
  cbv zeta.
  apply (@rebuild_lengths_agree F64 _ Sample.str_of_json).
  vm_compute. discriminate.
Defined.

Lemma rebuild_pairs_when_none_fails_witness :
  let W : @Server.world F64 :=
    Sample.world_with [Sample.entry "DAL9"; Sample.entry "UAL2"]
      Sample.steady_embed in
  let post := rebuild_index W Sample.fresh_state in
  Server.metadata post
  = extract_semantic_messages Sample.str_of_json
      (Server.adsb_file W) (Server.vdl2_file W)
  /\ Forall2 (fun text v =>
               exists e, Server.get_embedding W text = Ok e
                         /\ v = fvec_renorm_L2 e)
       (Server.metadata post) (Server.index post).
Proof.
  cbv zeta.
  apply (@rebuild_pairs_when_none_fails F64 _ Sample.str_of_json).
  - vm_compute. discriminate.
  - repeat constructor; eexists; reflexivity.
  - vm_compute. reflexivity.
Defined.

Lemma extract_nothing_witness :
  extract_semantic_messages Sample.str_of_json Missing Blank = [].
Proof.
  apply (@extract_nothing_from_unusable_sources Sample.str_of_json).
  - left. reflexivity.
  - right. left. reflexivity.
Defined.

End Runs.

(** ** More on the source parsers *)

Section ParserFacts.

Variable py_str : json -> string.

(** X4: an aircraft entry that is not an object, or whose flight id is not
    a string, ends the position-report loop: the entries before it keep
    their summaries, the entries after it get none, and the message source
    is still read. *)
Theorem adsb_unreadable_entry_ends_loop top good bad rest vdl2 :
  lookup top "aircraft" = Some (JList (good ++ bad :: rest)) ->
  Forall readable_entry good ->
  ~ readable_entry bad ->
  exists out,
    Forall2 (summary_of_entry py_str) good out
    /\ extract_semantic_messages py_str (Decoded (JDict top)) vdl2
       = fst (extract_vdl2 py_str vdl2 out).
Proof.
  intros Htop Hgood Hbad.
  destruct (adsb_summary_unreadable py_str Hbad) as [e He].
  assert (Hout : exists out,
    Forall2 (fun a s => adsb_summary py_str a = Ok s) good out
    /\ Forall2 (summary_of_entry py_str) good out).
  { clear Htop. induction Hgood as [| a good Ha _ [out [Hrun Hdesc]]].
    - exists []. split; constructor.
    - destruct (adsb_summary_readable py_str Ha) as [s [Hs Hd]].
      exists (s :: out). split; constructor; assumption. }
  destruct Hout as [out [Hrun Hdesc]].
  exists out. split; [exact Hdesc |].
  unfold extract_semantic_messages, extract_adsb. cbn. rewrite Htop. cbn.
  rewrite (@collect_stops_at_raise _ _ _ rest _ [] _ Hrun He). reflexivity.
Qed.

Lemma collect_from_acc body items : forall acc,
  fst (collect body items acc) = (acc ++ fst (collect body items []))%list.
Proof.
  induction items as [| a items IH]; intros acc; cbn.
  - rewrite app_nil_r. reflexivity.
  - destruct (body a) as [s | e]; cbn.
    + rewrite (IH (acc ++ [s])%list), (IH [s]), <- app_assoc. reflexivity.
    + rewrite app_nil_r. reflexivity.
Qed.

(** X5: the summaries are those of the position reports followed by
    those of the messages, and what one source contributes does not depend
    on the other. *)
Theorem extract_is_adsb_then_vdl2 adsb vdl2 :
  extract_semantic_messages py_str adsb vdl2
  = (extract_semantic_messages py_str adsb Missing
     ++ extract_semantic_messages py_str Missing vdl2)%list.
Proof.
  unfold extract_semantic_messages.
  replace (fst (extract_adsb py_str Missing [])) with (@nil string)
    by reflexivity.
  replace (fst (extract_vdl2 py_str Missing (fst (extract_adsb py_str adsb []))))
    with (fst (extract_adsb py_str adsb [])) by reflexivity.
  generalize (fst (extract_adsb py_str adsb [])). intros acc.
  unfold extract_vdl2. destruct (load_vdl2 vdl2) as [data | e]; cbn.
  - apply collect_from_acc.
  - rewrite app_nil_r. reflexivity.
Qed.

Lemma vdl2_summary_readable entry :
  Acars.readable_message entry ->
  exists s, vdl2_summary py_str entry = Ok s
            /\ Acars.summary_of_message py_str entry s.
Proof.
  intros [acars [Hacars Hflight]].
  pose proof Hacars as [fields [inner [-> [Hwrap Hinner]]]].
  assert (Hbody : vdl2_summary py_str (JDict fields)
    = (f <- Json.get (JDict acars) "flight" (JStr "unknown") ;;
       flight <- Json.strip f ;;
       msg_text <- Json.get (JDict acars) "msg_text" (JStr "no message") ;;
       Ok (acars_format flight (fmt py_str msg_text)))).
  { unfold vdl2_summary. cbn [Json.get Py.bind].
    destruct Hwrap as [Hw | [Hw ->]]; rewrite Hw; cbn [Json.get Py.bind];
      (destruct Hinner as [Hi | [Hi ->]]; rewrite Hi; reflexivity). }
  rewrite Hbody. cbn [Json.get Py.bind].
  assert (Hstrip : exists fl,
    Json.strip (match lookup acars "flight" with
                | Some v => v | None => JStr "unknown" end) = Ok fl
    /\ (lookup acars "flight" = None -> fl = "unknown")
    /\ (forall raw, lookup acars "flight" = Some (JStr raw) ->
                    fl = Py.strip raw)).
  { destruct Hflight as [Hnone | [s Hsome]].
    - rewrite Hnone. exists "unknown".
      split; [reflexivity |]. split; [auto | discriminate].
    - rewrite Hsome. exists (Py.strip s).
      split; [reflexivity |]. split; [discriminate |].
      intros raw Hraw. congruence. }
  destruct Hstrip as [fl [Hfl [Hdef Hraw]]]. rewrite Hfl. cbn [Py.bind].
  eexists. split; [reflexivity |].
  exists acars. do 2 eexists. split; [exact Hacars |].
  split; [reflexivity |].
  repeat split; try assumption.
  - intros Hnone. rewrite Hnone. reflexivity.
  - intros v Hv. rewrite Hv. reflexivity.
Qed.

(** A message entry that is not readable makes the loop body raise. *)
Lemma vdl2_summary_unreadable entry :
  ~ Acars.readable_message entry ->
  exists e, vdl2_summary py_str entry = Raise e.
Proof.
  intros Hbad. unfold vdl2_summary.
  destruct entry as [| b | n | x | s | items | fields];
    try (eexists; reflexivity).
  cbn [Json.get Py.bind].
  assert (Hinner : forall inner,
    (lookup fields "vdl2" = Some (JDict inner)
     \/ (lookup fields "vdl2" = None /\ inner = fields)) ->
    exists e,
      (acars <- Json.get (JDict inner) "acars" (JDict []) ;;
       f <- Json.get acars "flight" (JStr "unknown") ;;
       flight <- Json.strip f ;;
       msg_text <- Json.get acars "msg_text" (JStr "no message") ;;
       Ok (acars_format flight (fmt py_str msg_text))) = Raise e).
  { intros inner Hwrap. cbn [Json.get Py.bind].
    assert (Hacars : forall acars,
      (lookup inner "acars" = Some (JDict acars)
       \/ (lookup inner "acars" = None /\ acars = [])) ->
      exists e,
        (f <- Json.get (JDict acars) "flight" (JStr "unknown") ;;
         flight <- Json.strip f ;;
         msg_text <- Json.get (JDict acars) "msg_text" (JStr "no message") ;;
         Ok (acars_format flight (fmt py_str msg_text))) = Raise e).
    { intros acars Hmember. cbn [Json.get Py.bind].
      destruct (lookup acars "flight") as [f |] eqn:Hflight.
      - destruct f as [| b | n | x | s | items | other];
          try (eexists; reflexivity).
        exfalso. apply Hbad. exists acars. split.
        + exists fields, inner. auto.
        + right. exists s. exact Hflight.
      - exfalso. apply Hbad. exists acars. split.
        + exists fields, inner. auto.
        + left. exact Hflight. }
    destruct (lookup inner "acars") as [a |] eqn:Hmember.
    - destruct a as [| b | n | x | s | items | acars];
        try (eexists; reflexivity).
      apply Hacars. left. reflexivity.
    - apply (Hacars []). right. split; reflexivity. }
  destruct (lookup fields "vdl2") as [v |] eqn:Hwrap.
  - destruct v as [| b | n | x | s | items | inner];
      try (eexists; reflexivity).
    apply Hinner. left. reflexivity.
  - apply (Hinner fields). right. split; reflexivity.
Qed.

(** The summaries of a list of readable message entries. *)
Lemma vdl2_summaries_of_readable good :
  Forall Acars.readable_message good ->
  exists out,
    Forall2 (fun a s => vdl2_summary py_str a = Ok s) good out
    /\ Forall2 (Acars.summary_of_message py_str) good out.
Proof.
  induction 1 as [| a good Ha _ [out [Hrun Hdesc]]].
  - exists []. split; constructor.
  - destruct (vdl2_summary_readable Ha) as [s [Hs Hd]].
    exists (s :: out). split; constructor; assumption.
Qed.

(** X6: the message loop yields exactly one summary, in order and after
    the summaries already collected, for each entry that comes before the
    first unreadable one (an entry that is not an object, whose [vdl2] or
    [acars] member is not an object, or whose flight id is not a string);
    that entry ends the loop with an exception, so it and the entries
    after it yield none, and without such an entry every entry yields its
    summary.  A missing flight id is written "unknown" and a missing
    message text "no message".  A file that holds a single entry is read
    as the list of that entry. *)
Theorem vdl2_one_summary_per_entry good rest acc :
  Forall Acars.readable_message good ->
  (forall bad later, rest = bad :: later -> ~ Acars.readable_message bad) ->
  exists out e,
    extract_vdl2 py_str (Decoded (JList (good ++ rest))) acc
    = ((acc ++ out)%list, e)
    /\ Forall2 (Acars.summary_of_message py_str) good out
    /\ (e = None <-> rest = [])
    /\ (forall fields, (good ++ rest)%list = [JDict fields] ->
          extract_vdl2 py_str (Decoded (JDict fields)) acc
          = ((acc ++ out)%list, e)).
Proof.
  intros Hgood Hrest.
  destruct (vdl2_summaries_of_readable Hgood) as [out [Hrun Hdesc]].
  exists out.
  assert (Hcollect : exists e,
    collect (vdl2_summary py_str) (good ++ rest) acc = ((acc ++ out)%list, e)
    /\ (e = None <-> rest = [])).
  { destruct rest as [| bad later].
    - exists None. rewrite app_nil_r, (collect_run _ acc Hrun).
      split; [reflexivity | tauto].
    - destruct (vdl2_summary_unreadable (Hrest bad later eq_refl)) as [e He].
      exists (Some e).
      rewrite (@collect_stops_at_raise _ _ _ later _ acc _ Hrun He).
      split; [reflexivity |]. split; discriminate. }
  destruct Hcollect as [e [Hcollect Hnone]].
  exists e. split; [exact Hcollect |]. split; [exact Hdesc |].
  split; [exact Hnone |].
  intros fields Hone. unfold extract_vdl2. cbn [load_vdl2].
  rewrite <- Hone. exact Hcollect.
Qed.

(** X7: an entry wrapped under the key [vdl2] yields the summary of the
    object it wraps, when that object has no [vdl2] member of its own. *)
Theorem vdl2_wrapper_is_transparent fields inner :
  lookup fields "vdl2" = Some (JDict inner) ->
  lookup inner "vdl2" = None ->
  vdl2_summary py_str (JDict fields) = vdl2_summary py_str (JDict inner).
Proof.
  intros Hwrap Hflat. unfold vdl2_summary. cbn [Json.get Py.bind].
  rewrite Hwrap, Hflat. reflexivity.
Qed.

End ParserFacts.

(** ** Persistence, restart and the background loop *)

Section CycleFacts.

Context {F : Type} {ops : FloatOps F}.
Variable py_str : json -> string.

Local Abbreviation rebuild_run := (Server.rebuild_run py_str).
Local Abbreviation rebuild_index := (Server.rebuild_index py_str).
Local Abbreviation summaries_of W :=
  (extract_semantic_messages py_str (Server.adsb_file W) (Server.vdl2_file W)).

(** X8: a cycle that indexed at least one vector, ended without an
    exception and could write both files leaves on disk exactly the index
    and the metadata it published. *)
Theorem successful_cycle_saves_what_it_published (W : Server.world) st :
  Server.embed_all W (summaries_of W) <> [] ->
  Server.raised (rebuild_run W st) = None ->
  Server.index_file_writable W = true ->
  Server.meta_file_writable W = true ->
  Server.index_file (rebuild_index W st) = Some (Server.index (rebuild_index W st))
  /\ Server.meta_file (rebuild_index W st)
     = Some (Server.metadata (rebuild_index W st)).
Proof.
  run_cases py_str W st; intros Hsome Hraised Hiw Hmw;
    try discriminate; try congruence; auto.
Qed.

(** X9: whether the two files can be written has no effect on what a
    cycle publishes in memory. *)
Theorem persistence_does_not_change_publication (W : Server.world) st iw mw :
  let W' :=
    Server.World (Server.adsb_file W) (Server.vdl2_file W)
      (Server.embeddings W) (Server.chat W) iw mw in
  Server.index (rebuild_index W' st) = Server.index (rebuild_index W st)
  /\ Server.metadata (rebuild_index W' st) = Server.metadata (rebuild_index W st)
  /\ Server.raised (rebuild_run W' st) = Server.raised (rebuild_run W st).
Proof.
  cbv zeta. unfold Server.rebuild_index, Server.rebuild_run.
  cbn [Server.adsb_file Server.vdl2_file].
  destruct (summaries_of W) as [| msg0 more]; cbn [truthy_list negb];
    [cbn; auto |].
  replace (Server.embed_all
             (Server.World (Server.adsb_file W) (Server.vdl2_file W)
                (Server.embeddings W) (Server.chat W) iw mw) (msg0 :: more))
    with (Server.embed_all W (msg0 :: more)).
  - destruct (Server.embed_all W (msg0 :: more)) as [| emb0 embs];
      cbn [truthy_list]; [cbn; auto |].
    destruct (np_array (emb0 :: embs)) as [matrix | e1]; [| cbn; auto].
    destruct (index_add _ (normalize_L2 matrix)) as [vectors | e2];
      [| cbn; auto].
    unfold Server.persist. cbn [Server.index_file_writable Server.meta_file_writable].
    destruct iw, mw, (Server.index_file_writable W), (Server.meta_file_writable W);
      cbn; auto.
  - generalize (msg0 :: more). intros l.
    induction l as [| m l IH]; [reflexivity |].
    cbn [Server.embed_all]. unfold Server.get_embedding.
    cbn [Server.embeddings]. rewrite IH. reflexivity.
Qed.

(** X10: a cycle that indexed nothing, raised, or could not write the
    index file leaves both saved files as they were; in particular, after
    a cycle in which every embedding failed the files still hold the
    snapshot that the cycle removed from memory. *)
Theorem files_change_only_after_indexing (W : Server.world) st :
  Server.embed_all W (summaries_of W) = []
  \/ Server.raised (rebuild_run W st) <> None
  \/ Server.index_file_writable W = false ->
  Server.index_file (rebuild_index W st) = Server.index_file st
  /\ Server.meta_file (rebuild_index W st) = Server.meta_file st.
Proof.
  run_cases py_str W st; intros [H | [H | H]];
    try discriminate; try congruence; auto.
Qed.

(** X11: when the index file is written and the metadata file is not,
    the disk holds the new vectors beside the summaries of an earlier
    cycle, and a process that restarts on these files serves that pair. *)
Theorem failed_metadata_write_leaves_mixed_files (W : Server.world) st :
  Server.embed_all W (summaries_of W) <> [] ->
  Server.raised (rebuild_run W st) = None ->
  Server.index_file_writable W = true ->
  Server.meta_file_writable W = false ->
  let post := rebuild_index W st in
  Server.index_file post = Some (Server.index post)
  /\ Server.meta_file post = Server.meta_file st
  /\ forall old, Server.meta_file st = Some old ->
       Server.index (Lifecycle.start_process true true post) = Server.index post
       /\ Server.metadata (Lifecycle.start_process true true post) = old.
Proof.
  cbv zeta. unfold Lifecycle.start_process, Lifecycle.load_existing.
  run_cases py_str W st; intros Hsome Hraised Hiw Hmw;
    try discriminate; try congruence.
  split; [reflexivity |]. split; [reflexivity |].
  intros old Hold. rewrite Hold. cbn. auto.
Qed.

(** X12: a process that restarts on the files of a successful cycle has
    the index and the metadata that cycle published. *)
Theorem restart_restores_published_snapshot (W : Server.world) st :
  Server.embed_all W (summaries_of W) <> [] ->
  Server.raised (rebuild_run W st) = None ->
  Server.index_file_writable W = true ->
  Server.meta_file_writable W = true ->
  let post := rebuild_index W st in
  Server.index (Lifecycle.start_process true true post) = Server.index post
  /\ Server.metadata (Lifecycle.start_process true true post)
     = Server.metadata post.
Proof.
  cbv zeta. unfold Lifecycle.start_process, Lifecycle.load_existing.
  run_cases py_str W st; intros Hsome Hraised Hiw Hmw;
    try discriminate; try congruence.
  cbn. auto.
Qed.

Lemma renorm_length (x : list F) :
  List.length (fvec_renorm_L2 x) = List.length x.
Proof.
  unfold fvec_renorm_L2. destruct (fltb _ _); [apply length_map | reflexivity].
Qed.

(** X13: when the embeddings that succeeded do not all have the same
    length, or not the index dimension, the cycle raises after it has
    emptied the index and the metadata; and since the loop calls
    [rebuild_index] unguarded, no later cycle runs. *)
Theorem malformed_embedding_ends_the_loop (W : Server.world) later st emb0 embs :
  summaries_of W <> [] ->
  Server.embed_all W (summaries_of W) = emb0 :: embs ->
  List.length emb0 <> EMBED_DIM
  \/ (exists e, In e embs /\ List.length e <> List.length emb0) ->
  exists e s,
    Lifecycle.periodic_rebuild py_str (W :: later) st = (s, Some e)
    /\ Server.index s = [] /\ Server.metadata s = [].
Proof.
  intros Hsome Hemb Hbad. cbn [Lifecycle.periodic_rebuild].
  unfold Server.rebuild_run.
  destruct (summaries_of W) as [| msg0 more]; [congruence |].
  cbn [truthy_list negb]. rewrite Hemb. cbn [truthy_list].
  destruct (np_array (emb0 :: embs)) as [matrix | e1] eqn:Harr.
  - apply np_array_rows in Harr as Hrows. subst matrix.
    assert (Hdim : List.length emb0 <> EMBED_DIM).
    { destruct Hbad as [Hd | [e [Hin Hne]]]; [exact Hd |].
      exfalso. cbn in Harr.
      destruct (forallb _ embs) eqn:Hall; [| discriminate].
      rewrite forallb_forall in Hall. specialize (Hall e Hin).
      apply Nat.eqb_eq in Hall. contradiction. }
    unfold index_add. cbn [normalize_L2 map row_dim].
    rewrite renorm_length.
    destruct (Nat.eqb (List.length emb0) EMBED_DIM) eqn:Heq;
      [apply Nat.eqb_eq in Heq; contradiction |].
    cbn. eauto.
  - cbn. eauto.
Qed.

(** One cycle keeps the index and the metadata of equal length. *)
Lemma cycle_keeps_lengths (W : Server.world) st :
  List.length (Server.index st) = List.length (Server.metadata st) ->
  List.length (Server.index (rebuild_index W st))
  = List.length (Server.metadata (rebuild_index W st)).
Proof.
  intros Hst.
  assert (Hpost : forall matrix vectors emb0 embs msg0 more,
    np_array (emb0 :: embs) = Ok matrix ->
    index_add [] (normalize_L2 matrix) = Ok vectors ->
    Server.embed_all W (msg0 :: more) = (emb0 :: embs) ->
    List.length vectors
    = List.length (firstn (S (List.length embs)) (msg0 :: more))).
  { intros matrix vectors emb0 embs msg0 more Harr Hadd Hemb.
    apply np_array_rows in Harr. apply index_add_rows in Hadd. subst.
    cbn [app]. unfold normalize_L2. rewrite length_map, length_firstn.
    pose proof (embed_all_length W (msg0 :: more)) as Hle.
    rewrite Hemb in Hle. cbn [List.length] in *.
    symmetry. apply Nat.min_l. exact Hle. }
  run_cases py_str W st; try exact Hst; try reflexivity;
    cbn in Hadd; erewrite Hpost by eassumption; reflexivity.
Qed.

(** X14: however many cycles the background loop runs, and whichever
    embeddings fail in them, the index and the metadata keep the same
    number of entries. *)
Theorem periodic_rebuild_keeps_lengths cycles : forall st,
  List.length (Server.index st) = List.length (Server.metadata st) ->
  List.length (Server.index (fst (Lifecycle.periodic_rebuild py_str cycles st)))
  = List.length
      (Server.metadata (fst (Lifecycle.periodic_rebuild py_str cycles st))).
Proof.
  induction cycles as [| W rest IH]; intros st Hst; cbn [Lifecycle.periodic_rebuild].
  - exact Hst.
  - pose proof (@cycle_keeps_lengths W st Hst) as Hpost.
    unfold Server.rebuild_index in Hpost.
    destruct (Server.raised (rebuild_run W st)); [exact Hpost |].
    apply IH. exact Hpost.
Qed.

End CycleFacts.

(** ** More on the query handlers *)

Section ReplyFacts.

Context {F : Type} {ops : FloatOps F}.
Variable float_str : F -> string.
Variable float_2f : F -> string.

Local Abbreviation ask_question := (Server.ask_question float_str float_2f).
Local Abbreviation format_response := (Server.format_response float_str float_2f).

Lemma getitem_In {A} (l : list A) i a : getitem l i = Ok a -> In a l.
Proof.
  unfold getitem.
  destruct ((0 <=? _) && _); [| discriminate].
  destruct (nth_error l _) as [b |] eqn:Hnth; [| discriminate].
  intros H. inversion H; subst. eapply nth_error_In. exact Hnth.
Qed.

Lemma filter_hits_kept meta (t : F) found : forall hits,
  Server.filter_hits meta t found = Ok hits -> Forall (Replies.kept meta t) hits.
Proof.
  induction found as [| [sc idx] rest IH]; intros hits; cbn [Server.filter_hits].
  - intros H. inversion H. constructor.
  - destruct ((idx <? Server.len meta) && fleb t sc) eqn:Hguard; [| apply IH].
    destruct (getitem meta idx) as [tx |] eqn:Hget; cbn [Py.bind]; [| discriminate].
    destruct (Server.filter_hits meta t rest) as [more |]; cbn [Py.bind];
      [| discriminate].
    intros H. inversion H; subst. constructor; [| apply IH; reflexivity].
    apply andb_true_iff in Hguard. destruct Hguard as [_ Hsc].
    repeat split; cbn; [exact Hsc | eapply getitem_In; exact Hget].
Qed.

Lemma slice_to_positive {A} n (l : list A) :
  0 < n -> slice_to n l = firstn (Z.to_nat n) l.
Proof.
  intros Hn. unfold slice_to.
  replace (0 <=? n) with true by (symmetry; apply Z.leb_le; lia). reflexivity.
Qed.

Lemma Forall_firstn_keeps {A} (P : A -> Prop) n : forall l,
  Forall P l -> Forall P (firstn n l).
Proof.
  induction n as [| n IH]; intros l Hl; [constructor |].
  destruct Hl; cbn; constructor; auto.
Qed.

(** X15: with well-formed parameters /ask does not raise.  Its reply is
    an error object or is built from at most [max_results] entries, each
    the text of a metadata entry with a score that reaches the threshold;
    this holds in every state of the index and the metadata. *)
Theorem ask_reply_within_bounds (W : Server.world) st args t n :
  Server.py_float (args_get args "threshold" "0.3") = Ok t ->
  py_int (args_get args "max_results" "5") = Ok n ->
  exists r,
    ask_question W st args = Ok r
    /\ ((exists error query, r = Server.ErrorResponse error query)
        \/ (exists hits debug_mode dbg,
              r = format_response args (args_get args "q" EmptyString) t
                    (List.length (Server.metadata st)) hits debug_mode dbg
              /\ (List.length hits <= Z.to_nat n)%nat
              /\ Forall (Replies.kept (Server.metadata st) t) hits)).
Proof.
  intros Ht Hn. unfold Server.ask_question. rewrite Ht, Hn. cbn [Py.bind].
  destruct (negb (truthy_str _)); [eauto 6 |].
  destruct (negb (truthy_list _)); [eauto 6 |].
  unfold Server.ask_search.
  destruct (Server.get_embedding W _) as [q | e]; cbn [Py.bind]; [| eauto 6].
  destruct (index_search _ q _) as [found | e] eqn:Hsearch; cbn [Py.bind];
    [| eauto 6].
  apply index_search_found in Hsearch. destruct Hsearch as [Hk _].
  assert (Hpos : 0 < n) by lia.
  destruct (Server.filter_hits _ t found) as [hits | e] eqn:Hfilter;
    cbn [Py.bind]; [| eauto 6].
  apply filter_hits_kept in Hfilter.
  rewrite (slice_to_positive _ Hpos).
  assert (Hlen : (List.length (firstn (Z.to_nat n) hits) <= Z.to_nat n)%nat)
    by (rewrite length_firstn; lia).
  pose proof (Forall_firstn_keeps (Z.to_nat n) Hfilter) as Hkept.
  destruct (negb (truthy_list hits) && _);
    [destruct (Server.best_matches _ _) as [best | e] |];
    cbn [Py.bind]; eauto 10.
Qed.

Lemma chat_context_within_bounds (W : Server.world) st query (t : F) n ctx :
  Server.chat_context W st query t n = Ok ctx ->
  (List.length ctx <= Z.to_nat n)%nat
  /\ Forall (fun m => In m (Server.metadata st)) ctx.
Proof.
  unfold Server.chat_context.
  destruct (truthy_list (Server.metadata st)).
  - destruct (Server.get_embedding W query) as [q | e]; cbn [Py.bind];
      [| discriminate].
    destruct (index_search _ q _) as [found | e] eqn:Hsearch; cbn [Py.bind];
      [| discriminate].
    apply index_search_found in Hsearch. destruct Hsearch as [Hk _].
    assert (Hpos : 0 < n) by lia.
    destruct (Server.filter_hits _ t found) as [hits | e] eqn:Hfilter;
      cbn [Py.bind]; [| discriminate].
    apply filter_hits_kept in Hfilter.
    intros H. inversion H; subst ctx; clear H.
    rewrite (slice_to_positive _ Hpos). split.
    + rewrite length_firstn. lia.
    + apply Forall_firstn_keeps. apply Forall_forall. intros m Hin.
      apply in_map_iff in Hin. destruct Hin as [h [<- Hh]].
      rewrite Forall_forall in Hfilter. apply (Hfilter h Hh).
  - intros H. inversion H. split; [cbn; lia | constructor].
Qed.

(** X16: with well-formed parameters /chat does not raise.  Its reply is
    an error object or the text generated from a context of at most
    [max_context] messages, all of them metadata entries, and
    [context_used] is the number of these messages. *)
Theorem chat_reply_within_bounds (W : Server.world) st args t n :
  Server.py_float (args_get args "threshold" "0.3") = Ok t ->
  py_int (args_get args "max_context" "3") = Ok n ->
  exists r,
    Server.chat_endpoint W st args = Ok r
    /\ ((exists error query, r = Server.ErrorResponse error query)
        \/ (exists ctx,
              r = Server.ChatResponse (args_get args "q" EmptyString)
                    (Server.generate_chat_response W
                       (args_get args "q" EmptyString) ctx
                       (args_get args "model" "gemma3:4b"))
                    (List.length ctx)
                    (if Server.arg_is_true args "show_context"
                     then Some ctx else None)
                    (args_get args "model" "gemma3:4b") t
              /\ (List.length ctx <= Z.to_nat n)%nat
              /\ Forall (fun m => In m (Server.metadata st)) ctx)).
Proof.
  intros Ht Hn. unfold Server.chat_endpoint. rewrite Ht, Hn. cbn [Py.bind].
  destruct (negb (truthy_str _)); [eauto 6 |].
  destruct (Server.chat_context W st _ t n) as [ctx | e] eqn:Hctx; [| eauto 6].
  destruct (chat_context_within_bounds _ _ _ _ _ Hctx) as [Hlen Hin].
  eexists. split; [reflexivity |]. right. exists ctx. auto.
Qed.

(** X17: over a non-empty index, a /chat request whose [max_context] is
    zero or negative is answered with the "Chat error" object: the search
    is asked for a non-positive number of candidates. *)
Theorem chat_rejects_nonpositive_max_context (W : Server.world) st args t n :
  args_get args "q" EmptyString <> EmptyString ->
  Server.py_float (args_get args "threshold" "0.3") = Ok t ->
  py_int (args_get args "max_context" "3") = Ok n ->
  n <= 0 ->
  Server.metadata st <> [] ->
  exists msg,
    Server.chat_endpoint W st args
    = Ok (Server.ErrorResponse ("Chat error: " ++ msg)
            (Some (args_get args "q" EmptyString))).
Proof.
  intros Hq Ht Hn Hneg Hmeta.
  unfold Server.chat_endpoint. rewrite Ht, Hn. cbn [Py.bind].
  rewrite (truthy_str_nonempty Hq). cbn [negb].
  unfold Server.chat_context. rewrite (truthy_list_nonempty Hmeta).
  destruct (Server.get_embedding W _) as [q | e]; cbn [Py.bind].
  - rewrite index_search_nonpositive by lia. cbn [Py.bind]. eauto.
  - eauto.
Qed.

End ReplyFacts.

(** ** More runs on sample inputs (binary64 arithmetic) *)

Section MoreRuns.

Local Abbreviation F64 := PrimFloat.float.
Local Abbreviation str := Sample.str_of_json.

Lemma adsb_unreadable_entry_witness :
  let top := [("aircraft",
               JList ([Sample.entry "DAL9"] ++ JInt 7 :: [Sample.entry "UAL2"]))] in
  exists out,
    Forall2 (summary_of_entry str) [Sample.entry "DAL9"] out
    /\ extract_semantic_messages str (Decoded (JDict top)) Missing
       = fst (extract_vdl2 str Missing out).
Proof.
  cbv zeta.
  apply (@adsb_unreadable_entry_ends_loop str _ [Sample.entry "DAL9"] (JInt 7)
           [Sample.entry "UAL2"] Missing).
  - reflexivity.
  - repeat constructor. exists [("flight", JStr "DAL9")].
    split; [reflexivity |]. right. exists "DAL9". reflexivity.
  - intros [fields [H _]]. discriminate H.
Defined.

Lemma vdl2_one_summary_per_entry_witness :
  let acars := [("flight", JStr "UAL2 "); ("msg_text", JStr "FUEL OK")] in
  let good := [JDict [("vdl2", JDict [("acars", JDict acars)])]; JDict []] in
  let rest := [JDict [("vdl2", JNull)]; JDict [("acars", JDict acars)]] in
  exists out e,
    extract_vdl2 str (Decoded (JList (good ++ rest))) ["first"]
    = ((["first"] ++ out)%list, e)
    /\ Forall2 (Acars.summary_of_message str) good out
    /\ (e = None <-> rest = [])
    /\ (forall fields, (good ++ rest)%list = [JDict fields] ->
          extract_vdl2 str (Decoded (JDict fields)) ["first"]
          = ((["first"] ++ out)%list, e)).
Proof.
  cbv zeta.
  apply (@vdl2_one_summary_per_entry str).
  - repeat constructor.
    + exists [("flight", JStr "UAL2 "); ("msg_text", JStr "FUEL OK")]. split.
      * exists [("vdl2", JDict [("acars", JDict [("flight", JStr "UAL2 ");
                                                   ("msg_text", JStr "FUEL OK")])])].
        exists [("acars", JDict [("flight", JStr "UAL2 ");
                                  ("msg_text", JStr "FUEL OK")])].
        split; [reflexivity |]. split; left; reflexivity.
      * right. exists "UAL2 ". reflexivity.
    + exists []. split.
      * exists [], []. split; [reflexivity |].
        split; right; split; reflexivity.
      * left. reflexivity.
  - intros bad later Hrest [acars [[fields [inner [Hbad [Hwrap _]]]] _]].
    injection Hrest as <- _. injection Hbad as <-.
    destruct Hwrap as [Hwrap | [Hwrap _]]; discriminate Hwrap.
Defined.

Lemma vdl2_wrapper_witness :
  let inner := [("acars", JDict [("msg_text", JStr "FUEL OK")])] in
  vdl2_summary str (JDict [("vdl2", JDict inner)])
  = vdl2_summary str (JDict inner).
Proof.
  cbv zeta.
  apply (@vdl2_wrapper_is_transparent str); reflexivity.
Defined.

Lemma successful_cycle_saves_witness :
  let W : @Server.world F64 :=
    Sample.world_with [Sample.entry "UAL2"] Sample.steady_embed in
  let post := Server.rebuild_index str W Sample.published_state in
  Server.index_file post = Some (Server.index post)
  /\ Server.meta_file post = Some (Server.metadata post).
Proof.
  cbv zeta.
  apply (@successful_cycle_saves_what_it_published F64 _ str).
  - vm_compute. discriminate.
  - vm_compute. reflexivity.
  - reflexivity.
  - reflexivity.
Defined.

Lemma files_change_only_after_indexing_witness :
  let W : @Server.world F64 :=
    Sample.world_with [Sample.entry "AAL1"] Sample.failing_embed in
  let st := Sample.published_state in
  Server.index_file (Server.rebuild_index str W st) = Server.index_file st
  /\ Server.meta_file (Server.rebuild_index str W st) = Server.meta_file st.
Proof.
  cbv zeta.
  apply (@files_change_only_after_indexing F64 _ str).
  left. vm_compute. reflexivity.
Defined.

Lemma failed_metadata_write_witness :
  let W : @Server.world F64 :=
    Server.World (Sample.aircraft_file [Sample.entry "UAL2"]) Missing
      Sample.steady_embed Sample.canned_chat true false in
  let st : @Server.state F64 := Sample.published_state in
  let post := Server.rebuild_index str W st in
  Server.index_file post = Some (Server.index post)
  /\ Server.meta_file post = Server.meta_file st
  /\ forall old, Server.meta_file st = Some old ->
       Server.index (Lifecycle.start_process true true post) = Server.index post
       /\ Server.metadata (Lifecycle.start_process true true post) = old.
Proof.
  cbv zeta.
  apply (@failed_metadata_write_leaves_mixed_files F64 _ str).
  - vm_compute. discriminate.
  - vm_compute. reflexivity.
  - reflexivity.
  - reflexivity.
Defined.

Lemma restart_restores_witness :
  let W : @Server.world F64 :=
    Sample.world_with [Sample.entry "UAL2"] Sample.steady_embed in
  let post := Server.rebuild_index str W Sample.published_state in
  Server.index (Lifecycle.start_process true true post) = Server.index post
  /\ Server.metadata (Lifecycle.start_process true true post)
     = Server.metadata post.
Proof.
  cbv zeta.
  apply (@restart_restores_published_snapshot F64 _ str).
  - vm_compute. discriminate.
  - vm_compute. reflexivity.
  - reflexivity.
  - reflexivity.
Defined.

Lemma malformed_embedding_witness :
  let short (text : string) : result (list F64) :=
    Ok [1%float; 2%float; 3%float] in
  let W := Sample.world_with [Sample.entry "UAL2"] short in
  exists e s,
    Lifecycle.periodic_rebuild str [W; W] Sample.published_state = (s, Some e)
    /\ Server.index s = [] /\ Server.metadata s = [].
Proof.
  cbv zeta.
  apply (@malformed_embedding_ends_the_loop F64 _ str _ _ _
           (fvec_renorm_L2 [1%float; 2%float; 3%float]) []).
  - vm_compute. discriminate.
  - vm_compute. reflexivity.
  - left. vm_compute. discriminate.
Defined.

Lemma periodic_rebuild_keeps_lengths_witness :
  let W1 : @Server.world F64 :=
    Sample.world_with [Sample.entry "AAL1"; Sample.entry "UAL2"]
      Sample.flaky_embed in
  let W2 : @Server.world F64 :=
    Sample.world_with [Sample.entry "AAL1"] Sample.failing_embed in
  let final := fst (Lifecycle.periodic_rebuild str [W1; W2; W1]
                      Sample.published_state) in
  List.length (Server.index final) = List.length (Server.metadata final).
Proof.
  cbv zeta.
  apply (@periodic_rebuild_keeps_lengths F64 _ str).
  reflexivity.
Defined.

Lemma ask_reply_within_bounds_witness :
  let W : @Server.world F64 := Sample.world_with [] Sample.steady_embed in
  let st : @Server.state F64 := Sample.two_flights_state in
  let args := [("q", "fuel status"); ("max_results", "1"); ("threshold", "0")] in
  let t := (float_of_Z 0 / float_of_Z 1)%float in
  exists r,
    Server.ask_question Sample.str_of_float Sample.str_of_float W st args = Ok r
    /\ ((exists error query, r = Server.ErrorResponse error query)
        \/ (exists hits debug_mode dbg,
              r = Server.format_response Sample.str_of_float
                    Sample.str_of_float args (args_get args "q" EmptyString) t
                    (List.length (Server.metadata st)) hits debug_mode dbg
              /\ (List.length hits <= Z.to_nat 1)%nat
              /\ Forall (Replies.kept (Server.metadata st) t) hits)).
Proof.
  cbv zeta.
  apply (@ask_reply_within_bounds F64 _ Sample.str_of_float Sample.str_of_float);
    reflexivity.
Defined.

Lemma chat_reply_within_bounds_witness :
  let W : @Server.world F64 := Sample.world_with [] Sample.steady_embed in
  let st : @Server.state F64 := Sample.two_flights_state in
  let args := [("q", "fuel status"); ("max_context", "1"); ("threshold", "0")] in
  let t := (float_of_Z 0 / float_of_Z 1)%float in
  exists r,
    Server.chat_endpoint W st args = Ok r
    /\ ((exists error query, r = Server.ErrorResponse error query)
        \/ (exists ctx,
              r = Server.ChatResponse (args_get args "q" EmptyString)
                    (Server.generate_chat_response W
                       (args_get args "q" EmptyString) ctx
                       (args_get args "model" "gemma3:4b"))
                    (List.length ctx)
                    (if Server.arg_is_true args "show_context"
                     then Some ctx else None)
                    (args_get args "model" "gemma3:4b") t
              /\ (List.length ctx <= Z.to_nat 1)%nat
              /\ Forall (fun m => In m (Server.metadata st)) ctx)).
Proof.
  cbv zeta.
  apply (@chat_reply_within_bounds F64 _); reflexivity.
Defined.

Lemma chat_rejects_nonpositive_witness :
  let W : @Server.world F64 := Sample.world_with [] Sample.steady_embed in
  let args := [("q", "fuel status"); ("max_context", "0")] in
  exists msg,
    Server.chat_endpoint W Sample.published_state args
    = Ok (Server.ErrorResponse ("Chat error: " ++ msg)
            (Some (args_get args "q" EmptyString))).
Proof.
  cbv zeta.
  apply (@chat_rejects_nonpositive_max_context F64 _ _ _ _
           (float_of_Z 3 / float_of_Z 10)%float 0).
  - discriminate.
  - reflexivity.
  - reflexivity.
  - lia.
  - discriminate.
Defined.

End MoreRuns.

(** ** The generator's files as the server reads them *)

Section GeneratorFacts.

Variable py_str : json -> string.
Variable py_round : PrimFloat.float -> Z -> PrimFloat.float.
Variable update_position :
  nat -> Generator.MockAircraft -> Generator.MockAircraft.

Lemma choice_nonempty {A} draw (seq : list A) :
  seq <> [] -> exists a, Generator.choice draw seq = Ok a /\ In a seq.
Proof.
  intros Hne. unfold Generator.choice.
  assert (Hlt : (Nat.modulo draw (List.length seq) < List.length seq)%nat).
  { apply Nat.mod_upper_bound. destruct seq; [congruence | discriminate]. }
  destruct (nth_error seq _) as [a |] eqn:Hnth.
  - exists a. split; [reflexivity |]. eapply nth_error_In. exact Hnth.
  - apply nth_error_None in Hnth. lia.
Qed.

Lemma randint_in_range a b draw :
  a <= b -> exists n, Generator.randint a b draw = Ok n /\ a <= n <= b.
Proof.
  intros Hab. unfold Generator.randint.
  destruct (Z.ltb_spec b a) as [Hlt | _]; [lia |].
  eexists. split; [reflexivity |].
  pose proof (Z.mod_pos_bound draw (b - a + 1)). lia.
Qed.

Lemma generate_vdl2_message_returns aircraft_hex flight_num d :
  exists msg text,
    Generator.generate_vdl2_message aircraft_hex flight_num d = Ok msg
    /\ In text Generator.ACARS_MESSAGES
    /\ load_vdl2 (Decoded msg) = Ok [msg]
    /\ vdl2_summary py_str msg
       = Ok (acars_format (Py.strip flight_num) text).
Proof.
  unfold Generator.generate_vdl2_message.
  destruct (@randint_in_range 100000 999999 (Generator.usec_draw d))
    as [usec [-> _]]; [lia |].
  destruct (@choice_nonempty _ (Generator.freq_draw d)
              [136925000; 136975000; 131525000; 131725000])
    as [freq [-> _]]; [discriminate |].
  destruct (@randint_in_range 20 200 (Generator.burst_draw d))
    as [burst [-> _]]; [lia |].
  destruct (@randint_in_range 0 7 (Generator.rseq_draw d))
    as [rseq [-> _]]; [lia |].
  destruct (@choice_nonempty _ (Generator.msg_draw d) Generator.ACARS_MESSAGES)
    as [text [-> Htext]]; [discriminate |].
  destruct (@randint_in_range 100 999 (Generator.tail_draw d))
    as [tail_number [-> _]]; [lia |].
  destruct (@choice_nonempty _ (Generator.letters_draw d) ["AA"; "AB"; "AC"; "AD"])
    as [letters [-> _]]; [discriminate |].
  cbn [Py.bind]. eexists. exists text.
  split; [reflexivity |]. split; [exact Htext |].
  split; reflexivity.
Qed.

(** X21: when [write_vdl2_data] fires on a non-empty aircraft list and can
    write, the message file holds one message, whatever it held before,
    and the server reads exactly one summary out of it: the flight id of
    one of the aircraft, stripped, with one of the texts of
    [ACARS_MESSAGES]. *)
Theorem generated_message_is_summarised aircraft_list pick d file acc :
  aircraft_list <> [] ->
  exists aircraft text,
    In aircraft aircraft_list
    /\ In text Generator.ACARS_MESSAGES
    /\ extract_vdl2 py_str
         (Generator.write_vdl2_data aircraft_list true pick d true file) acc
       = ((acc ++ [acars_format (Py.strip (Generator.flight aircraft)) text])%list,
          None).
Proof.
  intros Hne. unfold Generator.write_vdl2_data.
  rewrite (truthy_list_nonempty Hne). cbn [andb].
  destruct (choice_nonempty pick Hne) as [aircraft [-> Hin]]. cbn [Py.bind].
  destruct (generate_vdl2_message_returns (Generator.hex aircraft)
              (Generator.flight aircraft) d)
    as [msg [text [-> [Htext [Hload Hsum]]]]].
  exists aircraft, text. split; [exact Hin |]. split; [exact Htext |].
  unfold extract_vdl2. rewrite Hload. cbn [collect]. rewrite Hsum.
  reflexivity.
Qed.

Lemma rstrip_digits u :
  Py.rstrip (DecimalString.NilEmpty.string_of_uint u)
  = DecimalString.NilEmpty.string_of_uint u.
Proof.
  induction u as [| u IH | u IH | u IH | u IH | u IH | u IH | u IH | u IH
                  | u IH | u IH]; cbn [DecimalString.NilEmpty.string_of_uint Py.rstrip];
    [reflexivity | ..]; rewrite IH;
    destruct (DecimalString.NilEmpty.string_of_uint u); reflexivity.
Qed.

Lemma rstrip_str_of_int n :
  Py.rstrip (Generator.str_of_int n) = Generator.str_of_int n
  /\ Generator.str_of_int n <> EmptyString.
Proof.
  unfold Generator.str_of_int.
  assert (Hu : forall u,
    Py.rstrip (DecimalString.NilZero.string_of_uint u)
    = DecimalString.NilZero.string_of_uint u
    /\ DecimalString.NilZero.string_of_uint u <> EmptyString).
  { intros u. destruct u; cbn [DecimalString.NilZero.string_of_uint];
      (split; [try reflexivity; apply rstrip_digits | discriminate]). }
  destruct (Z.to_int n) as [u | u]; cbn [DecimalString.NilZero.string_of_int].
  - apply Hu.
  - destruct (Hu u) as [Hr Hne]. split; [| discriminate].
    cbn [Py.rstrip]. rewrite Hr.
    destruct (DecimalString.NilZero.string_of_uint u); [congruence | reflexivity].
Qed.

Lemma rstrip_after (c : ascii) (s : string) :
  Py.rstrip s = s -> s <> EmptyString ->
  Py.rstrip (String c s) = String c s.
Proof.
  intros Hs Hne. cbn [Py.rstrip]. rewrite Hs.
  destruct s; [congruence | reflexivity].
Qed.

Lemma rstrip_app (p s : string) :
  Py.rstrip s = s -> s <> EmptyString ->
  Py.rstrip (p ++ s) = p ++ s /\ p ++ s <> EmptyString.
Proof.
  intros Hs Hne. induction p as [| c p [IH Hp]]; cbn [append].
  - split; assumption.
  - split; [apply rstrip_after; assumption | discriminate].
Qed.

(** A string that starts with a character that is not whitespace and ends
    with an integer is its own [strip()]. *)
Lemma strip_prefixed (c : ascii) (p : string) n :
  Py.is_space c = false ->
  Py.strip (String c p ++ Generator.str_of_int n)
  = String c p ++ Generator.str_of_int n.
Proof.
  intros Hc. destruct (rstrip_str_of_int n) as [Hr Hne].
  unfold Py.strip. cbn [append Py.lstrip]. rewrite Hc.
  apply (rstrip_app (String c p) Hr Hne).
Qed.

(** X22: a flight id made by [generate_flight_number] has no surrounding
    whitespace, so the [strip()] of the two server parsers returns it as it
    is. *)
Theorem generated_flight_number_is_kept airline_draw number_draw :
  exists flight_num,
    Generator.generate_flight_number airline_draw number_draw = Ok flight_num
    /\ Py.strip flight_num = flight_num.
Proof.
  unfold Generator.generate_flight_number.
  destruct (@choice_nonempty _ airline_draw Generator.AIRLINES)
    as [airline [-> Hin]]; [discriminate |].
  cbn [Py.bind].
  assert (Hrange : fst (Generator.range airline) <= snd (Generator.range airline)
                   /\ exists c p, Generator.prefix airline = String c p
                                  /\ Py.is_space c = false).
  { cbn in Hin. destruct Hin as [<- | [<- | [<- | [<- | [<- | []]]]]];
      (split; [cbn; lia | do 2 eexists; split; reflexivity]). }
  destruct Hrange as [Hrange [c [p [Hprefix Hc]]]].
  destruct (randint_in_range number_draw Hrange) as [number [-> _]].
  cbn [Py.bind]. eexists. split; [reflexivity |].
  rewrite Hprefix. apply strip_prefixed. exact Hc.
Qed.

Lemma to_dict_is_summarised aircraft d entry :
  Generator.to_dict py_round aircraft d = Ok entry ->
  exists s,
    adsb_summary py_str entry = Ok s
    /\ Generator.summary_of_aircraft py_str py_round aircraft s.
Proof.
  unfold Generator.to_dict.
  destruct (Generator.int_of (Generator.altitude aircraft)) as [alt | e] eqn:Halt;
    cbn [Py.bind]; [| discriminate].
  destruct (Generator.randint (-100) 100 _) as [offset | e];
    cbn [Py.bind]; [| discriminate].
  destruct (Generator.int_of (Generator.add_int _ offset)) as [geom | e];
    cbn [Py.bind]; [| discriminate].
  destruct (Generator.int_of_float (Generator.speed aircraft)) as [gs | e] eqn:Hgs;
    cbn [Py.bind]; [| discriminate].
  destruct (Generator.randint 100 10000 _) as [messages | e];
    cbn [Py.bind]; [| discriminate].
  intros H. inversion H; subst entry; clear H.
  eexists. split; [reflexivity |].
  exists alt, gs. split; [exact Halt |]. split; [exact Hgs |]. reflexivity.
Qed.

Lemma to_dicts_are_summarised draws aircraft_list : forall i entries acc,
  Generator.to_dicts py_round draws i aircraft_list = Ok entries ->
  exists out,
    collect (adsb_summary py_str) entries acc = ((acc ++ out)%list, None)
    /\ Forall2 (Generator.summary_of_aircraft py_str py_round) aircraft_list out.
Proof.
  induction aircraft_list as [| aircraft rest IH]; intros i entries acc;
    cbn [Generator.to_dicts].
  - intros H. inversion H. exists []. split; [| constructor].
    cbn. rewrite app_nil_r. reflexivity.
  - destruct (Generator.to_dict py_round aircraft (draws i)) as [entry | e] eqn:Hentry;
      cbn [Py.bind]; [| discriminate].
    destruct (Generator.to_dicts py_round draws (S i) rest) as [more | e] eqn:Hmore;
      cbn [Py.bind]; [| discriminate].
    intros H. inversion H; subst entries; clear H.
    destruct (to_dict_is_summarised _ _ Hentry) as [s [Hs Hdesc]].
    destruct (IH _ _ (acc ++ [s])%list Hmore) as [out [Hrun Hall]].
    exists (s :: out). split; [| constructor; assumption].
    cbn [collect]. rewrite Hs, Hrun, <- app_assoc. reflexivity.
Qed.

(** X23: when [generate_adsb_data] returns a document, [write_adsb_data]
    stores it, and the server reads one summary per aircraft out of it, in
    order: the stripped flight id, the transponder code, the altitude and
    the speed truncated to integers, and the position rounded to six
    decimals, of the aircraft as the update loop left it. *)
Theorem generated_aircraft_are_summarised
  now count_draw draws aircraft_list file doc acc :
  snd (Generator.generate_adsb_data py_round update_position now count_draw
         draws aircraft_list) = Ok doc ->
  exists out,
    snd (Generator.write_adsb_data py_round update_position now count_draw
           draws aircraft_list true file) = Decoded doc
    /\ extract_adsb py_str (Decoded doc) acc = ((acc ++ out)%list, None)
    /\ Forall2 (Generator.summary_of_aircraft py_str py_round)
         (fst (Generator.generate_adsb_data py_round update_position now
                 count_draw draws aircraft_list)) out.
Proof.
  intros Hdoc. unfold Generator.write_adsb_data. rewrite Hdoc.
  unfold Generator.generate_adsb_data in *. cbn [fst snd] in *.
  destruct (Generator.randint 100000 999999 count_draw) as [messages | e];
    cbn [Py.bind] in Hdoc; [| discriminate].
  destruct (Generator.to_dicts py_round draws 0 _) as [entries | e] eqn:Hentries;
    cbn [Py.bind] in Hdoc; [| discriminate].
  inversion Hdoc; subst doc; clear Hdoc.
  destruct (to_dicts_are_summarised _ _ _ acc Hentries) as [out [Hrun Hall]].
  exists out. split; [reflexivity |]. split; [| exact Hall].
  unfold extract_adsb. cbn. exact Hrun.
Qed.

End GeneratorFacts.

(** ** Runs of the generator on sample draws *)

Lemma generated_message_witness :
  exists aircraft text,
    In aircraft [Generator.sample_aircraft]
    /\ In text Generator.ACARS_MESSAGES
    /\ extract_vdl2 Sample.str_of_json
         (Generator.write_vdl2_data [Generator.sample_aircraft] true 0
            Generator.sample_draws true Missing) ["first"]
       = ((["first"]
           ++ [acars_format (Py.strip (Generator.flight aircraft)) text])%list,
          None).
Proof.
  apply (@generated_message_is_summarised Sample.str_of_json
           [Generator.sample_aircraft] 0%nat Generator.sample_draws Missing
           ["first"]).
  discriminate.
Defined.

Lemma generated_aircraft_witness :
  let same (i : nat) (a : Generator.MockAircraft) := a in
  let draws (i : nat) := Generator.DictDraws 25 4000 in
  let run :=
    Generator.generate_adsb_data Generator.round_exact same 1700000000.5%float
      5000 draws [Generator.sample_aircraft] in
  exists doc out,
    snd run = Ok doc
    /\ snd (Generator.write_adsb_data Generator.round_exact same
              1700000000.5%float 5000 draws [Generator.sample_aircraft]
              true Missing) = Decoded doc
    /\ extract_adsb Sample.str_of_json (Decoded doc) [] = (([] ++ out)%list, None)
    /\ Forall2 (Generator.summary_of_aircraft Sample.str_of_json
                  Generator.round_exact) (fst run) out.
Proof.
  cbv zeta.
  assert (Hdoc : exists doc,
    snd (Generator.generate_adsb_data Generator.round_exact (fun _ a => a)
           1700000000.5%float 5000 (fun _ => Generator.DictDraws 25 4000)
           [Generator.sample_aircraft]) = Ok doc).
  { vm_compute. eexists. reflexivity. }
  destruct Hdoc as [doc Hdoc]. exists doc.
  destruct (@generated_aircraft_are_summarised Sample.str_of_json
              Generator.round_exact (fun _ a => a) 1700000000.5%float 5000
              (fun _ => Generator.DictDraws 25 4000)
              [Generator.sample_aircraft] Missing doc [] Hdoc)
    as [out Hout].
  exists out. split; [exact Hdoc | exact Hout].
Defined.
